(** * CII optimisation engine (server/optimizer.py): a shallow embedding

    The development follows [MaritimeOptimizer] of [server/optimizer.py].

    Numbers.  Python [float] values are embedded as [pyfloat]: an exact
    rational, or one of the IEEE specials [+inf], [-inf], [nan].  The
    arithmetic on the specials and the comparisons against [nan] follow
    IEEE 754 as Python exposes it; the arithmetic on finite values is exact,
    so binary64 rounding error, overflow and the sign of zero are outside the
    model.  Python's [/] on floats raises [ZeroDivisionError] on a zero
    divisor ([py_div]); the same operator on a [numpy.float64] operand
    returns [inf] or [nan] instead ([np_div]).

    Exceptions.  Fallible code lives in the error monad [exc].

    Library code.  Two callees are not part of the repository: the float
    power operator used by [calculate_required_cii], and
    [scipy.optimize.differential_evolution].  They are the two fields of
    [Externals]; what the development needs from them is stated as explicit
    contracts ([de_respects_bounds], [de_seed_reproducible]). *)

From Stdlib Require Import ZArith QArith Qabs Qround Lqa Lia Bool List String Ascii.
From Stdlib Require Import DecimalString.
Import ListNotations.

Local Open Scope Q_scope.
Local Open Scope string_scope.

(** ** Exceptions *)

Inductive exn : Type :=
| ZeroDivisionError
| ValueError
| KeyError
| IndexError
| OverflowError.

Inductive exc (A : Type) : Type :=
| Ok (a : A)
| Raise (e : exn).
Arguments Ok {A} a.
Arguments Raise {A} e.

Definition bind {A B : Type} (m : exc A) (k : A -> exc B) : exc B :=
  match m with
  | Ok a => k a
  | Raise e => Raise e
  end.

Notation "x <- m ;; k" := (bind m (fun x => k))
  (at level 61, m at next level, right associativity).

(** ** Floats *)

Inductive pyfloat : Type :=
| Fin (q : Q)
| PInf
| NInf
| NaN.

Coercion Fin : Q >-> pyfloat.

Definition Qsign (q : Q) : comparison := Qcompare 0 q.

Definition pf_neg (x : pyfloat) : pyfloat :=
  match x with
  | Fin q => Fin (- q)
  | PInf => NInf
  | NInf => PInf
  | NaN => NaN
  end.

(** [inf] with the sign of a finite factor; [0 * inf] is [nan]. *)
Definition signed_inf (q : Q) (positive : bool) : pyfloat :=
  match Qsign q with
  | Lt => if positive then PInf else NInf
  | Gt => if positive then NInf else PInf
  | Eq => NaN
  end.

Definition pf_mul (x y : pyfloat) : pyfloat :=
  match x, y with
  | NaN, _ | _, NaN => NaN
  | Fin a, Fin b => Fin (a * b)
  | Fin a, PInf | PInf, Fin a => signed_inf a true
  | Fin a, NInf | NInf, Fin a => signed_inf a false
  | PInf, PInf | NInf, NInf => PInf
  | PInf, NInf | NInf, PInf => NInf
  end.

Definition pf_add (x y : pyfloat) : pyfloat :=
  match x, y with
  | NaN, _ | _, NaN => NaN
  | Fin a, Fin b => Fin (a + b)
  | PInf, NInf | NInf, PInf => NaN
  | PInf, _ | _, PInf => PInf
  | NInf, _ | _, NInf => NInf
  end.

Definition pf_sub (x y : pyfloat) : pyfloat := pf_add x (pf_neg y).

(** IEEE division with a non-zero divisor. *)
Definition pf_div_nz (x y : pyfloat) : pyfloat :=
  match x, y with
  | NaN, _ | _, NaN => NaN
  | Fin a, Fin b => Fin (a / b)
  | Fin _, (PInf | NInf) => Fin 0
  | PInf, Fin b => signed_inf b true
  | NInf, Fin b => signed_inf b false
  | (PInf | NInf), (PInf | NInf) => NaN
  end.

Definition pf_eqb (x y : pyfloat) : bool :=
  match x, y with
  | Fin a, Fin b => Qeq_bool a b
  | PInf, PInf | NInf, NInf => true
  | _, _ => false
  end.

Definition pf_leb (x y : pyfloat) : bool :=
  match x, y with
  | NaN, _ | _, NaN => false
  | Fin a, Fin b => Qle_bool a b
  | NInf, _ | _, PInf => true
  | _, _ => false
  end.

Definition pf_ltb (x y : pyfloat) : bool :=
  match x, y with
  | NaN, _ | _, NaN => false
  | Fin a, Fin b => negb (Qle_bool b a)
  | NInf, NInf | PInf, PInf => false
  | NInf, _ | _, PInf => true
  | _, _ => false
  end.

Definition pf_gtb (x y : pyfloat) : bool := pf_ltb y x.

Definition is_zero (x : pyfloat) : bool := pf_eqb x (Fin 0).

(** [x / y] on Python floats. *)
Definition py_div (x y : pyfloat) : exc pyfloat :=
  if is_zero y then Raise ZeroDivisionError else Ok (pf_div_nz x y).

(** [x / y] when an operand is a [numpy.float64]: never raises. *)
Definition np_div (x y : pyfloat) : pyfloat :=
  if is_zero y then
    match x with
    | Fin a => signed_inf a true
    | PInf => PInf
    | NInf => NInf
    | NaN => NaN
    end
  else pf_div_nz x y.

(** [max(a, b)] of Python: the first argument unless the second is greater. *)
Definition py_max (a b : pyfloat) : pyfloat := if pf_gtb b a then b else a.

(** [abs(x)]. *)
Definition py_abs (x : pyfloat) : pyfloat :=
  match x with
  | Fin q => Fin (Qabs q)
  | PInf | NInf => PInf
  | NaN => NaN
  end.

(** Nearest integer, ties to the even one. *)
Definition round_half_even (q : Q) : Z :=
  let f := Qfloor q in
  match Qcompare (q - inject_Z f) (1 # 2) with
  | Lt => f
  | Gt => (f + 1)%Z
  | Eq => if Z.even f then f else (f + 1)%Z
  end.

Definition pow10 (ndigits : nat) : Z := Z.pow 10 (Z.of_nat ndigits).

(** [round(x, ndigits)] with [ndigits >= 0]. *)
Definition py_round (x : pyfloat) (ndigits : nat) : pyfloat :=
  match x with
  | Fin q =>
      Fin (inject_Z (round_half_even (q * inject_Z (pow10 ndigits)))
           / inject_Z (pow10 ndigits))
  | _ => x
  end.

(** [f'{x:.1f}']. *)
Definition string_of_nonneg (z : Z) : string :=
  NilZero.string_of_uint (N.to_uint (Z.to_N z)).

Definition format_1f (x : pyfloat) : string :=
  match x with
  | NaN => "nan"
  | PInf => "inf"
  | NInf => "-inf"
  | Fin q =>
      let n := round_half_even (Qabs q * 10) in
      (if Qle_bool 0 q then "" else "-")
        ++ string_of_nonneg (n / 10)%Z ++ "." ++ string_of_nonneg (n mod 10)%Z
  end.

(** ** Dictionaries and JSON-like values *)

(** A dict literal, in insertion order. *)
Fixpoint assoc_get {K V : Type} (eqb : K -> K -> bool) (d : list (K * V)) (k : K)
  : option V :=
  match d with
  | [] => None
  | (k', v) :: rest => if eqb k' k then Some v else assoc_get eqb rest k
  end.

(** [d.get(k, default)]. *)
Definition dict_get {K V : Type} (eqb : K -> K -> bool) (d : list (K * V)) (k : K)
  (default : V) : V :=
  match assoc_get eqb d k with
  | Some v => v
  | None => default
  end.

(** [d[k]]. *)
Definition dict_item {K V : Type} (eqb : K -> K -> bool) (d : list (K * V)) (k : K)
  : exc V :=
  match assoc_get eqb d k with
  | Some v => Ok v
  | None => Raise KeyError
  end.

(** [k in d]. *)
Definition dict_mem {K V : Type} (eqb : K -> K -> bool) (d : list (K * V)) (k : K)
  : bool :=
  match assoc_get eqb d k with
  | Some _ => true
  | None => false
  end.

(** [l.index(s)]. *)
Fixpoint list_index (l : list string) (s : string) : exc nat :=
  match l with
  | [] => Raise ValueError
  | h :: t => if String.eqb h s then Ok O else i <- list_index t s ;; Ok (S i)
  end.

(** [l[i]]. *)
Definition list_item {A : Type} (l : list A) (i : nat) : exc A :=
  match nth_error l i with
  | Some a => Ok a
  | None => Raise IndexError
  end.

(** [s in l] for a list of strings. *)
Definition str_in (s : string) (l : list string) : bool :=
  existsb (String.eqb s) l.

(** The values the result dictionaries are built from. *)
#[local] Unset Elimination Schemes.
Inductive pyval : Type :=
| VBool (b : bool)
| VStr (s : string)
| VNum (x : pyfloat)
| VList (l : list pyval)
| VDict (d : list (string * pyval)).
#[local] Set Elimination Schemes.

Definition field (v : pyval) (k : string) : option pyval :=
  match v with
  | VDict d => assoc_get String.eqb d k
  | _ => None
  end.

Definition has_field (v : pyval) (k : string) : bool :=
  match field v k with
  | Some _ => true
  | None => false
  end.

(** ** Request types (the docstring of [optimize_cii]) *)

Record OperationalParams : Type := {
  annualFuelConsumption : pyfloat;
  distanceTraveled : pyfloat;
  fuelType : string
}.

Record ShipInfo : Type := {
  shipType : string;
  capacity : pyfloat;
  year : Z
}.

(** The [current_params] dictionary as a value. *)
Definition params_value (p : OperationalParams) : pyval :=
  VDict [ ("annualFuelConsumption", VNum (annualFuelConsumption p));
          ("distanceTraveled", VNum (distanceTraveled p));
          ("fuelType", VStr (fuelType p)) ].

(** ** Library code *)

Module Scipy.

(** The state of the process-wide random generator, which
    [differential_evolution] draws from when it is given no seed. *)
Definition rng_state : Type := Z.

Record DEOptions : Type := {
  maxiter : Z;
  seed : option Z;
  atol : Q;
  tol : Q
}.

Record OptimizeResult : Type := {
  x : pyfloat * pyfloat;
  success : bool
}.

Definition Objective : Type := pyfloat * pyfloat -> exc pyfloat.
Definition Bounds : Type := (pyfloat * pyfloat) * (pyfloat * pyfloat).

End Scipy.

Record Externals : Type := {
  (** [base ** exponent] on floats *)
  float_pow : pyfloat -> pyfloat -> exc pyfloat;
  (** [scipy.optimize.differential_evolution(func, bounds, maxiter=, seed=, atol=, tol=)] *)
  differential_evolution :
    Scipy.rng_state -> Scipy.Objective -> Scipy.Bounds -> Scipy.DEOptions
    -> exc Scipy.OptimizeResult
}.

Definition within (lo hi v : pyfloat) : Prop :=
  pf_leb lo v = true /\ pf_leb v hi = true.

(** The solution vector of a successful call lies inside the bounds. *)
Definition de_respects_bounds (ext : Externals) : Prop :=
  forall g f b o r,
    differential_evolution ext g f b o = Ok r ->
    within (fst (fst b)) (snd (fst b)) (fst (Scipy.x r)) /\
    within (fst (snd b)) (snd (snd b)) (snd (Scipy.x r)).

(** With an integer seed the call uses a generator of its own, seeded with
    it, and does not read the process-wide one. *)
Definition de_seed_reproducible (ext : Externals) : Prop :=
  forall g1 g2 f b o,
    Scipy.seed o <> None ->
    differential_evolution ext g1 f b o = differential_evolution ext g2 f b o.

(** ** MaritimeOptimizer *)

Module MaritimeOptimizer.

(** CO2 conversion factors (tonnes CO2 per tonne fuel). *)
Definition CO2_FACTORS : list (string * Q) :=
  [ ("HFO", 3.114);
    ("MDO", 3.206);
    ("MGO", 3.206);
    ("LNG", 2.750);
    ("Methanol", 1.375);
    ("Ammonia", 0.0);
    ("LPG", 3.000) ].

Record Baseline : Type := { a : Q; c : Q }.

(** CII baselines (a, c parameters). *)
Definition CII_BASELINES : list (string * Baseline) :=
  [ ("Bulk Carrier", {| a := 4745; c := 0.622 |});
    ("Oil Tanker", {| a := 5247; c := 0.610 |});
    ("Container Ship", {| a := 1984; c := 0.489 |});
    ("LNG Carrier", {| a := 9.827; c := 0 |});
    ("General Cargo", {| a := 31948; c := 0.792 |}) ].

(** CII reduction factors by year. *)
Definition CII_REDUCTION_FACTORS : list (Z * Q) :=
  [ (2023%Z, 0.05); (2024%Z, 0.07); (2025%Z, 0.09); (2026%Z, 0.11); (2027%Z, 0.13);
    (2028%Z, 0.15); (2029%Z, 0.17); (2030%Z, 0.19); (2031%Z, 0.21); (2032%Z, 0.23);
    (2033%Z, 0.25); (2034%Z, 0.27); (2035%Z, 0.29); (2036%Z, 0.31); (2037%Z, 0.33);
    (2038%Z, 0.35); (2039%Z, 0.37); (2040%Z, 0.39) ].

(** Lines 46-54. *)
Definition calculate_cii (fuel_consumption distance capacity : pyfloat)
  (fuel_type : string) : exc pyfloat :=
  let cf := dict_get String.eqb CO2_FACTORS fuel_type 3.114 in
  let co2_emissions := pf_mul fuel_consumption cf in
  let transport_work := pf_mul capacity distance in
  if pf_eqb transport_work 0 then Ok PInf
  else
    q <- py_div co2_emissions transport_work ;;
    Ok (pf_mul q 1_000_000).

(** Lines 56-62. *)
Definition calculate_required_cii (ext : Externals) (ship_type : string)
  (capacity : pyfloat) (year : Z) : exc pyfloat :=
  bulk <- dict_item String.eqb CII_BASELINES "Bulk Carrier" ;;
  let baseline := dict_get String.eqb CII_BASELINES ship_type bulk in
  p <- float_pow ext capacity (pf_neg (c baseline)) ;;
  let base_cii := pf_mul (a baseline) p in
  let reduction := dict_get Z.eqb CII_REDUCTION_FACTORS year 0.09 in
  Ok (pf_mul base_cii (pf_sub 1 reduction)).

(** Lines 64-77. *)
Definition get_cii_rating (attained_cii required_cii : pyfloat) : exc string :=
  ratio <- py_div attained_cii required_cii ;;
  if pf_leb ratio 0.88 then Ok "A"
  else if pf_leb ratio 0.94 then Ok "B"
  else if pf_leb ratio 1.06 then Ok "C"
  else if pf_leb ratio 1.18 then Ok "D"
  else Ok "E".

(** Lines 79-91. *)
Definition rating_thresholds : list (string * Q) :=
  [ ("A", 0.88); ("B", 0.94); ("C", 1.06); ("D", 1.18) ].

Definition get_target_cii_for_rating (required_cii : pyfloat) (target_rating : string)
  : exc pyfloat :=
  if negb (dict_mem String.eqb rating_thresholds target_rating) then
    Ok (pf_mul required_cii 0.88)
  else
    t <- dict_item String.eqb rating_thresholds target_rating ;;
    Ok (pf_mul required_cii t).


(** Lines 131-134: the target rating, one band better when none is given. *)
Definition rating_order : list string := ["E"; "D"; "C"; "B"; "A"].

Definition resolve_target_rating (current_rating : string)
  (target_rating : option string) : exc string :=
  match target_rating with
  | None =>
      current_idx <- list_index rating_order current_rating ;;
      list_item rating_order (Nat.min (current_idx + 1) 4)
  | Some t => Ok t
  end.

(** Lines 138-147. *)
Definition already_optimal (current_params : OperationalParams)
  (current_rating : string) (current_cii required_cii : pyfloat) : pyval :=
  VDict [ ("success", VBool true);
          ("message", VStr "Already at optimal A rating");
          ("currentRating", VStr current_rating);
          ("targetRating", VStr "A");
          ("currentCII", VNum (py_round current_cii 2));
          ("targetCII", VNum (py_round (pf_mul required_cii 0.88) 2));
          ("recommendations", VList []);
          ("optimizedParams", params_value current_params) ].

(** Lines 153-156 and 172. *)
Definition search_bounds (current_params : OperationalParams) : Scipy.Bounds :=
  let fuel_min := pf_mul (annualFuelConsumption current_params) 0.7 in
  let fuel_max := pf_mul (annualFuelConsumption current_params) 1.0 in
  let dist_min := pf_mul (distanceTraveled current_params) 0.8 in
  let dist_max := pf_mul (distanceTraveled current_params) 1.2 in
  ((fuel_min, fuel_max), (dist_min, dist_max)).

(** Lines 159-165. *)
Definition objective (current_params : OperationalParams) (ship_info : ShipInfo)
  (target_cii : pyfloat) : Scipy.Objective :=
  fun xy =>
    let '(fuel, distance) := xy in
    cii <- calculate_cii fuel distance (capacity ship_info) (fuelType current_params) ;;
    let penalty := pf_mul (py_max 0 (pf_sub cii target_cii)) 100 in
    Ok (pf_add cii penalty).

(** Lines 178-181. *)
Definition search_options : Scipy.DEOptions :=
  {| Scipy.maxiter := 100; Scipy.seed := Some 42%Z;
     Scipy.atol := 0.01; Scipy.tol := 0.01 |}.

Definition strs (l : list string) : pyval := VList (map VStr l).

(** Lines 194-211.  [optimized_fuel] is a [numpy.float64], so the division
    is numpy's. *)
Definition fuel_reduction (current_params : OperationalParams)
  (optimized_fuel : pyfloat) : list pyval :=
  let fuel_reduction_pct :=
    pf_mul (np_div (pf_sub (annualFuelConsumption current_params) optimized_fuel)
                   (annualFuelConsumption current_params)) 100 in
  if pf_gtb fuel_reduction_pct 1 then
    [ VDict [ ("type", VStr "fuel_reduction");
              ("title", VStr "Reduce Fuel Consumption");
              ("description",
               VStr ("Reduce annual fuel consumption by "
                       ++ format_1f fuel_reduction_pct ++ "%"));
              ("from", VNum (py_round (annualFuelConsumption current_params) 2));
              ("to", VNum (py_round optimized_fuel 2));
              ("unit", VStr "tonnes");
              ("impact", VStr "high");
              ("suggestions",
               strs [ "Optimize speed (slow steaming)";
                      "Improve hull maintenance and cleaning";
                      "Optimize trim and ballast";
                      "Use weather routing systems" ]) ] ]
  else [].

(** Lines 213-245. *)
Definition distance_change (current_params : OperationalParams)
  (optimized_distance : pyfloat) : list pyval :=
  let distance_change_pct :=
    pf_mul (np_div (pf_sub optimized_distance (distanceTraveled current_params))
                   (distanceTraveled current_params)) 100 in
  if pf_gtb (py_abs distance_change_pct) 1 then
    if pf_gtb distance_change_pct 0 then
      [ VDict [ ("type", VStr "distance_increase");
                ("title", VStr "Optimize Route Efficiency");
                ("description",
                 VStr ("Increase operational distance by "
                         ++ format_1f distance_change_pct
                         ++ "% while maintaining fuel efficiency"));
                ("from", VNum (py_round (distanceTraveled current_params) 2));
                ("to", VNum (py_round optimized_distance 2));
                ("unit", VStr "nautical miles");
                ("impact", VStr "medium");
                ("suggestions",
                 strs [ "Optimize cargo capacity utilization";
                        "Reduce ballast voyages";
                        "Improve route planning" ]) ] ]
    else
      [ VDict [ ("type", VStr "distance_reduction");
                ("title", VStr "Reduce Unnecessary Distance");
                ("description",
                 VStr ("Reduce travel distance by "
                         ++ format_1f (py_abs distance_change_pct) ++ "%"));
                ("from", VNum (py_round (distanceTraveled current_params) 2));
                ("to", VNum (py_round optimized_distance 2));
                ("unit", VStr "nautical miles");
                ("impact", VStr "medium");
                ("suggestions",
                 strs [ "Optimize port selection";
                        "Improve route planning";
                        "Reduce waiting times" ]) ] ]
  else [].

(** Line 256: the inclusion test of a candidate fuel. *)
Definition qualifies (alt_rating current_rating target_rating : string)
  (alt_cii optimized_cii : pyfloat) : bool :=
  String.ltb alt_rating current_rating
  || (String.eqb alt_rating target_rating && pf_ltb alt_cii optimized_cii).

(** Lines 257-262. *)
Definition alternative_entry (fuel_type alt_rating : string)
  (alt_cii current_cii : pyfloat) : pyval :=
  VDict [ ("fuel", VStr fuel_type);
          ("cii", VNum (py_round alt_cii 2));
          ("rating", VStr alt_rating);
          ("improvement",
           VNum (py_round
                   (pf_mul (np_div (pf_sub current_cii alt_cii) current_cii) 100) 1)) ].

(** Lines 250-262: the loop over the candidate fuels. *)
Fixpoint alternatives (candidates : list string) (ship_info : ShipInfo)
  (optimized_fuel optimized_distance : pyfloat)
  (current_cii required_cii optimized_cii : pyfloat)
  (current_rating target_rating : string) : exc (list pyval) :=
  match candidates with
  | [] => Ok []
  | fuel_type :: rest =>
      alt_cii <- calculate_cii optimized_fuel optimized_distance
                   (capacity ship_info) fuel_type ;;
      alt_rating <- get_cii_rating alt_cii required_cii ;;
      tail <- alternatives rest ship_info optimized_fuel optimized_distance
                current_cii required_cii optimized_cii current_rating target_rating ;;
      Ok (if qualifies alt_rating current_rating target_rating alt_cii optimized_cii
          then alternative_entry fuel_type alt_rating alt_cii current_cii :: tail
          else tail)
  end.

Definition high_carbon_fuels : list string := ["HFO"; "MDO"; "MGO"].
Definition candidate_fuels : list string := ["LNG"; "Methanol"].

(** Lines 248-276. *)
Definition fuel_switching (current_params : OperationalParams) (ship_info : ShipInfo)
  (optimized_fuel optimized_distance : pyfloat)
  (current_cii required_cii optimized_cii : pyfloat)
  (current_rating target_rating : string) : exc (list pyval) :=
  if str_in (fuelType current_params) high_carbon_fuels then
    alternative_fuels <- alternatives candidate_fuels ship_info
                           optimized_fuel optimized_distance
                           current_cii required_cii optimized_cii
                           current_rating target_rating ;;
    match alternative_fuels with
    | [] => Ok []
    | _ :: _ =>
        Ok [ VDict [ ("type", VStr "fuel_switching");
                     ("title", VStr "Consider Alternative Fuels");
                     ("description",
                      VStr "Switching to cleaner fuels can significantly improve CII rating");
                     ("impact", VStr "high");
                     ("alternatives", VList alternative_fuels);
                     ("suggestions",
                      strs [ "Evaluate LNG conversion feasibility";
                             "Consider dual-fuel engines for new builds";
                             "Assess methanol availability at ports" ]) ] ]
    end
  else Ok [].

(** Lines 278-294. *)
Definition search_report (current_params : OperationalParams) (success : bool)
  (current_rating target_rating optimized_rating : string)
  (current_cii target_cii optimized_cii required_cii : pyfloat)
  (optimized_fuel optimized_distance : pyfloat) (recommendations : list pyval)
  : pyval :=
  VDict
    [ ("success", VBool success);
      ("currentRating", VStr current_rating);
      ("targetRating", VStr target_rating);
      ("achievedRating", VStr optimized_rating);
      ("currentCII", VNum (py_round current_cii 2));
      ("targetCII", VNum (py_round target_cii 2));
      ("optimizedCII", VNum (py_round optimized_cii 2));
      ("requiredCII", VNum (py_round required_cii 2));
      ("improvement",
       VNum (py_round
               (pf_mul (np_div (pf_sub current_cii optimized_cii) current_cii) 100)
               1));
      ("recommendations", VList recommendations);
      ("optimizedParams",
       VDict [ ("annualFuelConsumption", VNum (py_round optimized_fuel 2));
               ("distanceTraveled", VNum (py_round optimized_distance 2));
               ("fuelType", VStr (fuelType current_params)) ]) ].

(** Lines 93-294. *)
Definition optimize_cii (ext : Externals) (g : Scipy.rng_state)
  (current_params : OperationalParams) (ship_info : ShipInfo)
  (target_rating : option string) : exc pyval :=
  current_cii <- calculate_cii (annualFuelConsumption current_params)
                   (distanceTraveled current_params)
                   (capacity ship_info) (fuelType current_params) ;;
  required_cii <- calculate_required_cii ext (shipType ship_info)
                    (capacity ship_info) (year ship_info) ;;
  current_rating <- get_cii_rating current_cii required_cii ;;
  target_rating <- resolve_target_rating current_rating target_rating ;;
  if String.eqb current_rating "A" then
    Ok (already_optimal current_params current_rating current_cii required_cii)
  else
    target_cii <- get_target_cii_for_rating required_cii target_rating ;;
    result <- differential_evolution ext g
                (objective current_params ship_info target_cii)
                (search_bounds current_params) search_options ;;
    let '(optimized_fuel, optimized_distance) := Scipy.x result in
    optimized_cii <- calculate_cii optimized_fuel optimized_distance
                       (capacity ship_info) (fuelType current_params) ;;
    optimized_rating <- get_cii_rating optimized_cii required_cii ;;
    switching <- fuel_switching current_params ship_info
                   optimized_fuel optimized_distance
                   current_cii required_cii optimized_cii
                   current_rating target_rating ;;
    let recommendations :=
      (fuel_reduction current_params optimized_fuel
         ++ distance_change current_params optimized_distance
         ++ switching)%list in
    Ok (search_report current_params (Scipy.success result)
          current_rating target_rating optimized_rating
          current_cii target_cii optimized_cii required_cii
          optimized_fuel optimized_distance recommendations).

End MaritimeOptimizer.

(** ** A closed instance of the library code

    Used to run the embedding on concrete requests. *)

Module Instance.

(** The power operator where its result is rational: an integral exponent.
    This covers the 'LNG Carrier' baseline, whose exponent is 0.  Elsewhere
    the instance answers [nan]. *)
Definition pow_integral (base exponent : pyfloat) : exc pyfloat :=
  match base, exponent with
  | _, Fin e =>
      if Qeq_bool e 0 then Ok (Fin 1)
      else
        match base with
        | Fin b =>
            if Z.eqb (Z.pos (Qden (Qred e))) 1 then
              if Qeq_bool b 0 && negb (Qle_bool 0 e) then Raise ZeroDivisionError
              else Ok (Fin (Qpower b (Qnum (Qred e))))
            else Ok NaN
        | _ => Ok NaN
        end
  | _, _ => Ok NaN
  end.

(** A search that answers the corner of the box with the least fuel and the
    greatest distance, after evaluating the objective there; bounds that
    are not finite and ordered are rejected. *)
Definition valid_bound (b : pyfloat * pyfloat) : bool :=
  match b with
  | (Fin lo, Fin hi) => Qle_bool lo hi
  | _ => false
  end.

Definition corner_search (g : Scipy.rng_state) (func : Scipy.Objective)
  (bounds : Scipy.Bounds) (o : Scipy.DEOptions) : exc Scipy.OptimizeResult :=
  if valid_bound (fst bounds) && valid_bound (snd bounds) then
    let corner := (fst (fst bounds), snd (snd bounds)) in
    _ <- func corner ;;
    Ok {| Scipy.x := corner; Scipy.success := true |}
  else Raise ValueError.

Definition ext : Externals :=
  {| float_pow := pow_integral;
     differential_evolution := corner_search |}.

(** Closed requests. *)
Definition rated_A_params : OperationalParams :=
  {| annualFuelConsumption := 18500; distanceTraveled := 95000; fuelType := "HFO" |}.

Definition rated_D_params : OperationalParams :=
  {| annualFuelConsumption := 25000; distanceTraveled := 95000; fuelType := "HFO" |}.

Definition lng_carrier : ShipInfo :=
  {| shipType := "LNG Carrier"; capacity := 85000; year := 2025 |}.

Definition fractional_params : OperationalParams :=
  {| annualFuelConsumption := 100; distanceTraveled := 1000.008; fuelType := "HFO" |}.

Definition small_lng_carrier : ShipInfo :=
  {| shipType := "LNG Carrier"; capacity := 30000; year := 2025 |}.






End Instance.

(** * Vocabulary of the statements *)

Import MaritimeOptimizer.

(** The CO2 factor used for a fuel type, with the fallback of line 49. *)
Definition co2_factor (fuel_type : string) : Q :=
  dict_get String.eqb CO2_FACTORS fuel_type 3.114.

(** [round(q, 2)] of a finite value, as a rational. *)
Definition round2 (q : Q) : Q :=
  inject_Z (round_half_even (q * inject_Z (pow10 2))) / inject_Z (pow10 2).

(** What [optimize_cii] returns, path by path: the short circuit at rating
    'A' (lines 137-147), or the search with its report (lines 149-294). *)
Inductive outcome (ext : Externals) (g : Scipy.rng_state)
  (current_params : OperationalParams) (ship_info : ShipInfo)
  (target_rating : option string) : pyval -> Prop :=
| short_circuit current_cii required_cii target :
    calculate_cii (annualFuelConsumption current_params)
      (distanceTraveled current_params) (capacity ship_info)
      (fuelType current_params) = Ok current_cii ->
    calculate_required_cii ext (shipType ship_info) (capacity ship_info)
      (year ship_info) = Ok required_cii ->
    get_cii_rating current_cii required_cii = Ok "A" ->
    resolve_target_rating "A" target_rating = Ok target ->
    outcome ext g current_params ship_info target_rating
      (already_optimal current_params "A" current_cii required_cii)
| searched current_cii required_cii current_rating target target_cii result
    optimized_cii optimized_rating switching :
    calculate_cii (annualFuelConsumption current_params)
      (distanceTraveled current_params) (capacity ship_info)
      (fuelType current_params) = Ok current_cii ->
    calculate_required_cii ext (shipType ship_info) (capacity ship_info)
      (year ship_info) = Ok required_cii ->
    get_cii_rating current_cii required_cii = Ok current_rating ->
    current_rating <> "A" ->
    resolve_target_rating current_rating target_rating = Ok target ->
    get_target_cii_for_rating required_cii target = Ok target_cii ->
    differential_evolution ext g (objective current_params ship_info target_cii)
      (search_bounds current_params) search_options = Ok result ->
    calculate_cii (fst (Scipy.x result)) (snd (Scipy.x result))
      (capacity ship_info) (fuelType current_params) = Ok optimized_cii ->
    get_cii_rating optimized_cii required_cii = Ok optimized_rating ->
    fuel_switching current_params ship_info
      (fst (Scipy.x result)) (snd (Scipy.x result))
      current_cii required_cii optimized_cii current_rating target
      = Ok switching ->
    outcome ext g current_params ship_info target_rating
      (search_report current_params (Scipy.success result)
         current_rating target optimized_rating
         current_cii target_cii optimized_cii required_cii
         (fst (Scipy.x result)) (snd (Scipy.x result))
         (fuel_reduction current_params (fst (Scipy.x result))
            ++ distance_change current_params (snd (Scipy.x result))
            ++ switching)%list).

(** The request takes the search path: its current rating is not 'A'. *)
Definition takes_search_path (ext : Externals) (current_params : OperationalParams)
  (ship_info : ShipInfo) : Prop :=
  exists current_cii required_cii current_rating,
    calculate_cii (annualFuelConsumption current_params)
      (distanceTraveled current_params) (capacity ship_info)
      (fuelType current_params) = Ok current_cii /\
    calculate_required_cii ext (shipType ship_info) (capacity ship_info)
      (year ship_info) = Ok required_cii /\
    get_cii_rating current_cii required_cii = Ok current_rating /\
    current_rating <> "A".

(** The same library code with another search procedure. *)
Definition with_search (ext : Externals)
  (search : Scipy.rng_state -> Scipy.Objective -> Scipy.Bounds -> Scipy.DEOptions
            -> exc Scipy.OptimizeResult) : Externals :=
  {| float_pow := float_pow ext; differential_evolution := search |}.

(** ** Rating letters and their order *)

Definition rating_letters : list string := ["A"; "B"; "C"; "D"; "E"].

(** Position of a letter in the sequence A < B < C < D < E. *)
Definition rating_rank (r : string) : nat :=
  match list_index rating_letters r with
  | Ok i => i
  | Raise _ => 5
  end.

(** [r1] is strictly better than [r2]. *)
Definition better (r1 r2 : string) : Prop := (rating_rank r1 < rating_rank r2)%nat.

(** A candidate fuel was evaluated, at the optimized point, to [alt_cii] and
    [alt_rating] (lines 251-255). *)
Definition evaluated (ship_info : ShipInfo) (optimized_fuel optimized_distance : pyfloat)
  (required_cii : pyfloat) (fuel_type : string) (alt_cii : pyfloat)
  (alt_rating : string) : Prop :=
  calculate_cii optimized_fuel optimized_distance (capacity ship_info) fuel_type
  = Ok alt_cii /\
  get_cii_rating alt_cii required_cii = Ok alt_rating.

(** ** Which fuels a result offers *)

Definition alternatives_of (rec : pyval) : list pyval :=
  match field rec "alternatives" with
  | Some (VList l) => l
  | _ => []
  end.

Definition fuel_of (entry : pyval) : list string :=
  match field entry "fuel" with
  | Some (VStr f) => [f]
  | _ => []
  end.

(** The fuel names in the alternatives of all recommendations of a result. *)
Definition offered_fuels (result : pyval) : list string :=
  match field result "recommendations" with
  | Some (VList recs) =>
      flat_map (fun rec => flat_map fuel_of (alternatives_of rec)) recs
  | _ => []
  end.

(** A field of the optimizedParams of a result. *)
Definition optimized_param (result : pyval) (k : string) : option pyval :=
  match field result "optimizedParams" with
  | Some d => field d k
  | None => None
  end.

(** The baseline used for a ship type, with the fallback of line 58. *)
Definition baseline_of (ship_type : string) : Baseline :=
  dict_get String.eqb CII_BASELINES ship_type {| a := 4745; c := 0.622 |}.

(** The reduction factor used for a year, with the fallback of line 61. *)
Definition reduction_of (year : Z) : Q :=
  dict_get Z.eqb CII_REDUCTION_FACTORS year 0.09.

(** * Properties *)

(** ** The arithmetic of the embedding on examples *)

Example format_1f_ex1 : format_1f (Fin (3025 # 100)) = "30.2".
Proof. reflexivity. Qed.
Example format_1f_ex2 : format_1f (Fin (- (4 # 100))) = "-0.0".
Proof. reflexivity. Qed.
Example py_round_ex1 : py_round (Fin (12000072 # 10000)) 2 = Fin (120001 / 100).
Proof. reflexivity. Qed.

(** ** Comparisons and division on finite values *)

Lemma Qle_bool_false (p q : Q) : Qle_bool p q = false <-> q < p.
Proof.
  split; intro H.
  - apply Qnot_le_lt. intro Hle. apply Qle_bool_iff in Hle. congruence.
  - destruct (Qle_bool p q) eqn:E; [|reflexivity].
    apply Qle_bool_iff in E. exfalso. exact (Qlt_not_le _ _ H E).
Qed.

Lemma is_zero_fin (q : Q) : is_zero (Fin q) = true <-> q == 0.
Proof. unfold is_zero. simpl. apply Qeq_bool_iff. Qed.

Lemma is_zero_fin_false (q : Q) : ~ q == 0 -> is_zero (Fin q) = false.
Proof.
  intro H. destruct (is_zero (Fin q)) eqn:E; [|reflexivity].
  apply is_zero_fin in E. contradiction.
Qed.

Lemma py_div_fin (p q : Q) : ~ q == 0 -> py_div (Fin p) (Fin q) = Ok (Fin (p / q)).
Proof.
  intro H. unfold py_div. rewrite (is_zero_fin_false q H). reflexivity.
Qed.

(** Both sides of a finite interval are finite. *)
Lemma within_fin (lo hi : Q) (v : pyfloat) :
  within (Fin lo) (Fin hi) v -> exists q, v = Fin q /\ lo <= q /\ q <= hi.
Proof.
  intros [H1 H2]. destruct v as [q| | |]; simpl in *; try discriminate.
  exists q. split; [reflexivity|]. split; now apply Qle_bool_iff.
Qed.

(** ** RatingModel *)

(** The rating as a function of the exact ratio. *)
Lemma get_cii_rating_fin (attained required : Q) :
  ~ required == 0 ->
  get_cii_rating (Fin attained) (Fin required) =
  Ok (if Qle_bool (attained / required) 0.88 then "A"
      else if Qle_bool (attained / required) 0.94 then "B"
      else if Qle_bool (attained / required) 1.06 then "C"
      else if Qle_bool (attained / required) 1.18 then "D"
      else "E").
Proof.
  intro H. unfold get_cii_rating. rewrite (py_div_fin _ _ H). simpl.
  repeat (destruct (Qle_bool _ _); [reflexivity|]). reflexivity.
Qed.



(** The ratio of two infinite values is [nan], which fails every test of the
    chain. *)
Example get_cii_rating_nan : get_cii_rating PInf PInf = Ok "E".
Proof. reflexivity. Qed.




(** [calculate_cii] on finite arguments with non-zero transport work. *)
Lemma calculate_cii_fin (fuel distance capacity : Q) (fuel_type : string) :
  ~ capacity * distance == 0 ->
  calculate_cii fuel distance capacity fuel_type =
  Ok (Fin (fuel * co2_factor fuel_type / (capacity * distance) * 1_000_000)).
Proof.
  intro H. unfold calculate_cii. fold (co2_factor fuel_type). simpl pf_mul.
  change (pf_eqb (Fin (capacity * distance)) (Fin 0))
    with (is_zero (Fin (capacity * distance))).
  rewrite (is_zero_fin_false _ H).
  rewrite (py_div_fin _ _ H). reflexivity.
Qed.

Lemma Qpos_nonzero (q : Q) : 0 < q -> ~ q == 0.
Proof. intros H E. rewrite E in H. discriminate. Qed.

Lemma transport_work_nonzero (capacity distance : Q) :
  0 < capacity -> 0 < distance -> ~ capacity * distance == 0.
Proof.
  intros Hc Hd E.
  assert (0 < capacity * distance) by (apply Qmult_lt_0_compat; assumption).
  rewrite E in H. discriminate.
Qed.









(** ** The two paths of [optimize_cii] *)

Lemma bind_ok {A B : Type} (m : exc A) (k : A -> exc B) (b : B) :
  bind m k = Ok b -> exists a, m = Ok a /\ k a = Ok b.
Proof.
  destruct m as [a|e]; simpl; intro H; [|discriminate]. now exists a.
Qed.

Ltac bind_inv H :=
  let v := fresh "v" in
  let E := fresh "E" in
  apply bind_ok in H; destruct H as (v & E & H).

Lemma optimize_cii_outcome (ext : Externals) (g : Scipy.rng_state)
  (current_params : OperationalParams) (ship_info : ShipInfo)
  (target_rating : option string) (r : pyval) :
  optimize_cii ext g current_params ship_info target_rating = Ok r <->
  outcome ext g current_params ship_info target_rating r.
Proof.
  unfold optimize_cii. split.
  - intro H.
    bind_inv H. bind_inv H. bind_inv H. bind_inv H.
    destruct (String.eqb v1 "A") eqn:EA.
    + apply String.eqb_eq in EA. subst v1. injection H as <-.
      eapply short_circuit; eassumption.
    + apply String.eqb_neq in EA.
      bind_inv H. bind_inv H.
      destruct (Scipy.x v4) as [optimized_fuel optimized_distance] eqn:Ex.
      bind_inv H. bind_inv H. bind_inv H. injection H as <-.
      replace optimized_fuel with (fst (Scipy.x v4)) in * by (rewrite Ex; reflexivity).
      replace optimized_distance with (snd (Scipy.x v4)) in * by (rewrite Ex; reflexivity).
      eapply searched; eassumption.
  - intro H. destruct H as [cc rc tg H1 H2 H3 H4
                           | cc rc cr tg tc res oc orat sw H1 H2 H3 Hne H4 H5 H6 H7 H8 H9].
    + rewrite H1, H2. simpl. rewrite H3. simpl. rewrite H4. simpl. reflexivity.
    + rewrite H1, H2. simpl. rewrite H3. simpl. rewrite H4. simpl.
      apply String.eqb_neq in Hne. rewrite Hne.
      rewrite H5. simpl. rewrite H6. simpl.
      destruct (Scipy.x res) as [optimized_fuel optimized_distance].
      simpl in H7, H9 |- *. rewrite H7. simpl. rewrite H8. simpl.
      rewrite H9. simpl. reflexivity.
Qed.

Lemma resolve_target_rating_A (target_rating : option string) :
  exists target, resolve_target_rating "A" target_rating = Ok target.
Proof.
  destruct target_rating as [t|]; eexists; reflexivity.
Qed.

(** C3.  When the current rating is 'A', [optimize_cii] returns without
    calling the search (the result is the same whatever the search
    procedure is): optimizedParams is the input currentParams, the list of
    recommendations is empty, targetRating is 'A' and targetCII is
    0.88 x requiredCII rounded to 2 decimals. *)
Theorem short_circuit_at_A (ext : Externals) (g : Scipy.rng_state)
  (current_params : OperationalParams) (ship_info : ShipInfo)
  (target_rating : option string) (current_cii required_cii : pyfloat) :
  calculate_cii (annualFuelConsumption current_params)
    (distanceTraveled current_params) (capacity ship_info)
    (fuelType current_params) = Ok current_cii ->
  calculate_required_cii ext (shipType ship_info) (capacity ship_info)
    (year ship_info) = Ok required_cii ->
  get_cii_rating current_cii required_cii = Ok "A" ->
  exists result,
    optimize_cii ext g current_params ship_info target_rating = Ok result /\
    (forall search g',
       optimize_cii (with_search ext search) g' current_params ship_info target_rating
       = Ok result) /\
    field result "optimizedParams" = Some (params_value current_params) /\
    field result "recommendations" = Some (VList []) /\
    field result "targetRating" = Some (VStr "A") /\
    field result "targetCII" = Some (VNum (py_round (pf_mul required_cii 0.88) 2)).
Proof.
  intros Hc Hr Ha.
  destruct (resolve_target_rating_A target_rating) as [target Ht].
  exists (already_optimal current_params "A" current_cii required_cii).
  split; [|split].
  - apply optimize_cii_outcome. eapply short_circuit; eassumption.
  - intros search g'. apply optimize_cii_outcome.
    eapply short_circuit; eassumption.
  - repeat split; reflexivity.
Qed.

Lemma short_circuit_at_A_witness :
  exists result,
    optimize_cii Instance.ext 0%Z Instance.rated_A_params Instance.lng_carrier None
    = Ok result /\
    field result "optimizedParams" = Some (params_value Instance.rated_A_params) /\
    field result "recommendations" = Some (VList []).
Proof.
  destruct (short_circuit_at_A Instance.ext 0%Z Instance.rated_A_params
              Instance.lng_carrier None
              (Fin (18500 * 3.114 / (85000 * 95000) * 1_000_000))
              (Fin (9.827 * 1 * (1 + - 0.09))))
    as (result & H1 & _ & H2 & H3 & _).
  - reflexivity.
  - reflexivity.
  - reflexivity.
  - exists result. repeat split; assumption.
Defined.

(** C10.  'E' has no entry in the threshold table, so its target value is
    the one of 'A', 0.88 x requiredCII; a request with the explicit target
    'E' reports that value as targetCII and, on the search path, runs the
    search with the penalty set at it. *)
Theorem target_E_uses_A_threshold (ext : Externals) (g : Scipy.rng_state)
  (current_params : OperationalParams) (ship_info : ShipInfo)
  (required : pyfloat) :
  get_target_cii_for_rating required "E" = Ok (pf_mul required 0.88) /\
  get_target_cii_for_rating required "E" = get_target_cii_for_rating required "A" /\
  (forall result,
     optimize_cii ext g current_params ship_info (Some "E") = Ok result ->
     calculate_required_cii ext (shipType ship_info) (capacity ship_info)
       (year ship_info) = Ok required ->
     field result "targetCII" = Some (VNum (py_round (pf_mul required 0.88) 2)) /\
     (takes_search_path ext current_params ship_info ->
      field result "targetRating" = Some (VStr "E") /\
      exists r,
        differential_evolution ext g
          (objective current_params ship_info (pf_mul required 0.88))
          (search_bounds current_params) search_options = Ok r)).
Proof.
  split; [reflexivity|]. split; [reflexivity|].
  intros result H Hreq. apply optimize_cii_outcome in H.
  destruct H as [cc rc tg H1 H2 H3 H4
                | cc rc cr tg tc res oc orat sw H1 H2 H3 Hne H4 H5 H6 H7 H8 H9].
  - rewrite Hreq in H2. injection H2 as <-. split; [reflexivity|].
    intros (cc' & rc' & cr' & P1 & P2 & P3 & P4).
    rewrite H1 in P1. injection P1 as <-.
    rewrite Hreq in P2. injection P2 as <-.
    rewrite H3 in P3. injection P3 as <-. contradiction.
  - rewrite Hreq in H2. injection H2 as <-.
    simpl in H4. injection H4 as <-.
    change (get_target_cii_for_rating required "E") with (Ok (pf_mul required 0.88)) in H5.
    injection H5 as <-.
    split; [reflexivity|]. intros _. split; [reflexivity|].
    exists res. exact H6.
Qed.

Lemma target_E_uses_A_threshold_witness :
  exists result,
    optimize_cii Instance.ext 0%Z Instance.rated_D_params Instance.lng_carrier (Some "E")
    = Ok result /\
    field result "targetCII"
    = Some (VNum (py_round (pf_mul (Fin (9.827 * 1 * (1 + - 0.09))) 0.88) 2)) /\
    field result "targetRating" = Some (VStr "E").
Proof.
  destruct (target_E_uses_A_threshold Instance.ext 0%Z Instance.rated_D_params
              Instance.lng_carrier (Fin (9.827 * 1 * (1 + - 0.09))))
    as (_ & _ & H).
  eexists. split; [vm_compute; reflexivity|].
  edestruct H as (H1 & H2); [reflexivity | reflexivity |].
  split; [exact H1|].
  apply H2. do 3 eexists.
  split; [reflexivity|]. split; [reflexivity|]. split; [reflexivity|].
  discriminate.
Defined.

(** C5 as stated fails on the short circuit: the result of an 'A'-rated
    request has success = true and no achievedRating, optimizedCII or
    requiredCII. *)
Lemma short_circuit_lacks_fields :
  exists result,
    optimize_cii Instance.ext 0%Z Instance.rated_A_params Instance.lng_carrier None
    = Ok result /\
    field result "success" = Some (VBool true) /\
    has_field result "achievedRating" = false /\
    has_field result "optimizedCII" = false /\
    has_field result "requiredCII" = false.
Proof.
  eexists. split; [vm_compute; reflexivity|]. repeat split; reflexivity.
Qed.

(** C5 (amended).  A result of the search path contains currentRating,
    targetRating, achievedRating, currentCII, targetCII, optimizedCII and
    requiredCII, the four numbers being values rounded to 2 decimals; the
    result of the short circuit has success = true and contains
    currentRating, targetRating, currentCII and targetCII only, the two
    numbers rounded to 2 decimals. *)
Theorem result_fields (ext : Externals) (g : Scipy.rng_state)
  (current_params : OperationalParams) (ship_info : ShipInfo)
  (target_rating : option string) (result : pyval) :
  optimize_cii ext g current_params ship_info target_rating = Ok result ->
  exists current_cii required_cii current_rating target target_cii,
    calculate_cii (annualFuelConsumption current_params)
      (distanceTraveled current_params) (capacity ship_info)
      (fuelType current_params) = Ok current_cii /\
    calculate_required_cii ext (shipType ship_info) (capacity ship_info)
      (year ship_info) = Ok required_cii /\
    get_cii_rating current_cii required_cii = Ok current_rating /\
    field result "currentRating" = Some (VStr current_rating) /\
    field result "targetRating" = Some (VStr target) /\
    field result "currentCII" = Some (VNum (py_round current_cii 2)) /\
    field result "targetCII" = Some (VNum (py_round target_cii 2)) /\
    (current_rating <> "A" ->
     exists optimized_cii optimized_rating,
       field result "achievedRating" = Some (VStr optimized_rating) /\
       field result "optimizedCII" = Some (VNum (py_round optimized_cii 2)) /\
       field result "requiredCII" = Some (VNum (py_round required_cii 2))) /\
    (current_rating = "A" ->
     field result "success" = Some (VBool true) /\
     has_field result "achievedRating" = false /\
     has_field result "optimizedCII" = false /\
     has_field result "requiredCII" = false).
Proof.
  intro H. apply optimize_cii_outcome in H.
  destruct H as [cc rc tg H1 H2 H3 H4
                | cc rc cr tg tc res oc orat sw H1 H2 H3 Hne H4 H5 H6 H7 H8 H9].
  - exists cc, rc, "A", "A", (pf_mul rc 0.88).
    repeat (split; [first [assumption | reflexivity]|]).
    split; [intro C; now contradiction C|].
    intros _. repeat split; reflexivity.
  - exists cc, rc, cr, tg, tc.
    repeat (split; [first [assumption | reflexivity]|]).
    split; [|intro C; contradiction].
    intros _. exists oc, orat. repeat split; reflexivity.
Qed.

Lemma result_fields_witness :
  exists result,
    optimize_cii Instance.ext 0%Z Instance.rated_D_params Instance.lng_carrier None
    = Ok result /\
    has_field result "achievedRating" = true /\
    has_field result "optimizedCII" = true /\
    has_field result "requiredCII" = true.
Proof.
  eexists. split; [vm_compute; reflexivity|].
  edestruct (result_fields Instance.ext 0%Z Instance.rated_D_params
               Instance.lng_carrier None)
    as (cc & rc & cr & tg & tc & H1 & H2 & H3 & _ & _ & _ & _ & Hs & _);
    [reflexivity|].
  vm_compute in H1. injection H1 as <-.
  vm_compute in H2. injection H2 as <-.
  vm_compute in H3. injection H3 as <-.
  destruct Hs as (oc & orat & F1 & F2 & F3); [discriminate|].
  pose (present := fun o : option pyval =>
                    match o with Some _ => true | None => false end).
  split; [exact (f_equal present F1)|].
  split; [exact (f_equal present F2) | exact (f_equal present F3)].
Defined.

(** C9.  Two runs of [optimize_cii] on the same request give the same
    result, whatever the state of the process-wide random generator: the
    search is called with the fixed seed 42 (and a fixed iteration cap and
    tolerances), and a seeded search does not read that state. *)
Theorem optimize_cii_reproducible (ext : Externals) (g1 g2 : Scipy.rng_state)
  (current_params : OperationalParams) (ship_info : ShipInfo)
  (target_rating : option string) :
  de_seed_reproducible ext ->
  optimize_cii ext g1 current_params ship_info target_rating
  = optimize_cii ext g2 current_params ship_info target_rating.
Proof.
  intro Hseed. unfold optimize_cii.
  destruct (calculate_cii _ _ _ _) as [cc|]; [|reflexivity]. simpl.
  destruct (calculate_required_cii _ _ _ _) as [rc|]; [|reflexivity]. simpl.
  destruct (get_cii_rating cc rc) as [cr|]; [|reflexivity]. simpl.
  destruct (resolve_target_rating cr target_rating) as [tg|]; [|reflexivity]. simpl.
  destruct (String.eqb cr "A"); [reflexivity|].
  destruct (get_target_cii_for_rating rc tg) as [tc|]; [|reflexivity]. simpl.
  rewrite (Hseed g1 g2); [reflexivity|].
  discriminate.
Qed.

(** The closed instance meets both contracts. *)
Lemma instance_seed_reproducible : de_seed_reproducible Instance.ext.
Proof. intros g1 g2 f b o _. reflexivity. Qed.

Lemma instance_respects_bounds : de_respects_bounds Instance.ext.
Proof.
  intros g f [[flo fhi] [dlo dhi]] o r. simpl. unfold Instance.corner_search. simpl.
  destruct flo as [fl| | |], fhi as [fh| | |]; simpl; try discriminate.
  destruct (Qle_bool fl fh) eqn:Ef; simpl; [|discriminate].
  destruct dlo as [dl| | |], dhi as [dh| | |]; simpl; try discriminate.
  destruct (Qle_bool dl dh) eqn:Ed; simpl; [|discriminate].
  destruct (f (Fin fl, Fin dh)); simpl; [|discriminate].
  intro H. injection H as <-. simpl. unfold within. simpl.
  rewrite Ef, Ed. repeat split; apply Qle_bool_iff; apply Qle_refl.
Qed.

Lemma optimize_cii_reproducible_witness :
  optimize_cii Instance.ext 0%Z Instance.rated_D_params Instance.lng_carrier None
  = optimize_cii Instance.ext 42%Z Instance.rated_D_params Instance.lng_carrier None.
Proof.
  apply optimize_cii_reproducible. exact instance_seed_reproducible.
Defined.

(** ** FuelSwitchEvaluator *)

Lemma get_cii_rating_letter (attained required : pyfloat) (r : string) :
  get_cii_rating attained required = Ok r -> In r rating_letters.
Proof.
  unfold get_cii_rating. intro H. bind_inv H.
  repeat match type of H with
    | (if ?b then _ else _) = _ => destruct b
    end;
    injection H as <-; simpl; tauto.
Qed.

(** On rating letters the string comparison of line 256 is the order of the
    bands. *)
Lemma ltb_better (r1 r2 : string) :
  In r1 rating_letters -> In r2 rating_letters ->
  (String.ltb r1 r2 = true <-> better r1 r2).
Proof.
  unfold better, rating_letters. simpl.
  intros H1 H2.
  repeat (destruct H1 as [H1|H1]; [subst r1|]); try contradiction;
  repeat (destruct H2 as [H2|H2]; [subst r2|]); try contradiction;
  vm_compute; split; intro H; first [reflexivity | discriminate | lia | idtac].
  all: try (exfalso; repeat (apply le_S_n in H); inversion H).
Qed.

Section Alternatives.

Variable ship_info : ShipInfo.
Variables optimized_fuel optimized_distance : pyfloat.
Variables current_cii required_cii optimized_cii : pyfloat.
Variables current_rating target_rating : string.

Local Abbreviation collect candidates :=
  (alternatives candidates ship_info optimized_fuel optimized_distance
     current_cii required_cii optimized_cii current_rating target_rating).

Local Abbreviation evaluated_here :=
  (evaluated ship_info optimized_fuel optimized_distance required_cii).

Lemma evaluated_functional (fuel_type : string) (x1 x2 : pyfloat) (r1 r2 : string) :
  evaluated_here fuel_type x1 r1 -> evaluated_here fuel_type x2 r2 -> x1 = x2 /\ r1 = r2.
Proof.
  intros [A1 B1] [A2 B2]. rewrite A1 in A2. injection A2 as <-.
  rewrite B1 in B2. injection B2 as <-. now split.
Qed.

Lemma alternative_entry_fuel (f1 f2 r1 r2 : string) (x1 x2 c1 c2 : pyfloat) :
  alternative_entry f1 r1 x1 c1 = alternative_entry f2 r2 x2 c2 -> f1 = f2.
Proof. unfold alternative_entry. intro H. now injection H. Qed.

(** Every candidate is evaluated, and the qualifying ones are kept. *)
Lemma alternatives_complete (candidates : list string) (alts : list pyval) :
  collect candidates = Ok alts ->
  forall fuel_type, In fuel_type candidates ->
    exists alt_cii alt_rating,
      evaluated_here fuel_type alt_cii alt_rating /\
      (qualifies alt_rating current_rating target_rating alt_cii optimized_cii = true ->
       In (alternative_entry fuel_type alt_rating alt_cii current_cii) alts).
Proof.
  revert alts.
  induction candidates as [|c0 rest IH]; intros alts H fuel_type Hin; [contradiction|].
  simpl in H. bind_inv H. bind_inv H. bind_inv H. injection H as <-.
  destruct Hin as [<-|Hin].
  - exists v, v0. split; [split; assumption|].
    intro Hq. rewrite Hq. now left.
  - destruct (IH _ E1 _ Hin) as (x & r & Hev & Hk).
    exists x, r. split; [exact Hev|]. intro Hq.
    destruct (qualifies v0 _ _ _ _); [right|]; now apply Hk.
Qed.

(** Nothing else is kept. *)
Lemma alternatives_sound (candidates : list string) (alts : list pyval) :
  collect candidates = Ok alts ->
  forall e, In e alts ->
    exists fuel_type alt_cii alt_rating,
      In fuel_type candidates /\
      evaluated_here fuel_type alt_cii alt_rating /\
      qualifies alt_rating current_rating target_rating alt_cii optimized_cii = true /\
      e = alternative_entry fuel_type alt_rating alt_cii current_cii.
Proof.
  revert alts.
  induction candidates as [|c0 rest IH]; intros alts H e Hin.
  - simpl in H. injection H as <-. contradiction.
  - simpl in H. bind_inv H. bind_inv H. bind_inv H. injection H as <-.
    destruct (qualifies v0 current_rating target_rating v optimized_cii) eqn:Hq.
    + destruct Hin as [<-|Hin].
      * exists c0, v, v0. repeat split; try assumption. now left.
      * destruct (IH _ E1 _ Hin) as (f & x & r & Hf & Hev & Hq' & ->).
        exists f, x, r. repeat split; try apply Hev; try assumption. now right.
    + destruct (IH _ E1 _ Hin) as (f & x & r & Hf & Hev & Hq' & ->).
      exists f, x, r. repeat split; try apply Hev; try assumption. now right.
Qed.

(** The entry of a candidate is in the list exactly when it passes the test
    of line 256. *)
Lemma alternatives_iff (candidates : list string) (alts : list pyval) :
  collect candidates = Ok alts ->
  forall fuel_type, In fuel_type candidates ->
    exists alt_cii alt_rating,
      evaluated_here fuel_type alt_cii alt_rating /\
      (In (alternative_entry fuel_type alt_rating alt_cii current_cii) alts <->
       qualifies alt_rating current_rating target_rating alt_cii optimized_cii = true).
Proof.
  intros H fuel_type Hin.
  destruct (alternatives_complete _ _ H _ Hin) as (x & r & Hev & Hk).
  exists x, r. split; [exact Hev|]. split; [|exact Hk].
  intro Hi. destruct (alternatives_sound _ _ H _ Hi) as (f' & x' & r' & _ & Hev' & Hq & Heq).
  pose proof (alternative_entry_fuel _ _ _ _ _ _ _ _ Heq) as ->.
  destruct (evaluated_functional _ _ _ _ _ Hev Hev') as [-> ->]. exact Hq.
Qed.

End Alternatives.

Lemma qualifies_iff (alt_rating current_rating target_rating : string)
  (alt_cii optimized_cii : pyfloat) :
  In alt_rating rating_letters -> In current_rating rating_letters ->
  (qualifies alt_rating current_rating target_rating alt_cii optimized_cii = true <->
   better alt_rating current_rating \/
   (alt_rating = target_rating /\ pf_ltb alt_cii optimized_cii = true)).
Proof.
  intros Ha Hc. unfold qualifies.
  rewrite orb_true_iff, andb_true_iff, String.eqb_eq, (ltb_better _ _ Ha Hc).
  reflexivity.
Qed.

Lemma str_in_high_carbon (fuel_type : string) :
  str_in fuel_type high_carbon_fuels = true <->
  fuel_type = "HFO" \/ fuel_type = "MDO" \/ fuel_type = "MGO".
Proof.
  unfold str_in, high_carbon_fuels. cbn [existsb].
  rewrite !orb_true_iff, !String.eqb_eq. intuition discriminate.
Qed.

(** The two operational recommendations are not of type fuel_switching. *)
Lemma operational_types (current_params : OperationalParams)
  (optimized_fuel optimized_distance : pyfloat) (r : pyval) :
  In r (fuel_reduction current_params optimized_fuel
          ++ distance_change current_params optimized_distance)%list ->
  field r "type" <> Some (VStr "fuel_switching") /\ field r "alternatives" = None.
Proof.
  intro H. apply in_app_or in H. destruct H as [H|H].
  - unfold fuel_reduction in H.
    destruct (pf_gtb _ _); [|contradiction].
    destruct H as [<-|[]]. split; [discriminate | reflexivity].
  - unfold distance_change in H.
    destruct (pf_gtb (py_abs _) _); [|contradiction].
    destruct (pf_gtb _ _); destruct H as [<-|[]];
      (split; [discriminate | reflexivity]).
Qed.

(** The shape of what [fuel_switching] appends. *)
Lemma fuel_switching_shape (current_params : OperationalParams) (ship_info : ShipInfo)
  (optimized_fuel optimized_distance current_cii required_cii optimized_cii : pyfloat)
  (current_rating target_rating : string) (recs : list pyval) :
  fuel_switching current_params ship_info optimized_fuel optimized_distance
    current_cii required_cii optimized_cii current_rating target_rating = Ok recs ->
  (str_in (fuelType current_params) high_carbon_fuels = false -> recs = []) /\
  (str_in (fuelType current_params) high_carbon_fuels = true ->
   exists alts,
     alternatives candidate_fuels ship_info optimized_fuel optimized_distance
       current_cii required_cii optimized_cii current_rating target_rating = Ok alts /\
     (alts = [] -> recs = []) /\
     (alts <> [] ->
      exists rec, recs = [rec] /\
        field rec "type" = Some (VStr "fuel_switching") /\
        field rec "alternatives" = Some (VList alts))).
Proof.
  unfold fuel_switching. intro H.
  destruct (str_in _ _).
  - split; [discriminate|]. intros _.
    bind_inv H. exists v. split; [exact E|].
    destruct v as [|e rest].
    + injection H as <-. split; [reflexivity|]. intro C. now contradiction C.
    + injection H as <-. split; [discriminate|]. intros _.
      eexists. split; [reflexivity|]. split; reflexivity.
  - injection H as <-. split; [reflexivity | discriminate].
Qed.

(** C8.  On the search path the recommendations are the operational ones
    followed by what the alternative-fuel evaluation appends.  It appends
    nothing unless the current fuel type is 'HFO', 'MDO' or 'MGO'.  For such
    a fuel, each candidate ('LNG', 'Methanol') is evaluated at the optimized
    fuel/distance point and its entry is listed if and only if its rating is
    strictly better than the current rating, or equals the resolved target
    rating with a CII below the optimized CII; only candidates are listed;
    and when at least one is listed, exactly one recommendation of type
    fuel_switching, carrying the list, is appended. *)
Theorem fuel_switching_evaluation (ext : Externals) (g : Scipy.rng_state)
  (current_params : OperationalParams) (ship_info : ShipInfo)
  (target_rating : option string) (result : pyval) :
  optimize_cii ext g current_params ship_info target_rating = Ok result ->
  takes_search_path ext current_params ship_info ->
  exists current_cii required_cii current_rating target target_cii found
         optimized_fuel optimized_distance optimized_cii recs,
    calculate_cii (annualFuelConsumption current_params)
      (distanceTraveled current_params) (capacity ship_info)
      (fuelType current_params) = Ok current_cii /\
    calculate_required_cii ext (shipType ship_info) (capacity ship_info)
      (year ship_info) = Ok required_cii /\
    get_cii_rating current_cii required_cii = Ok current_rating /\
    resolve_target_rating current_rating target_rating = Ok target /\
    differential_evolution ext g (objective current_params ship_info target_cii)
      (search_bounds current_params) search_options = Ok found /\
    Scipy.x found = (optimized_fuel, optimized_distance) /\
    calculate_cii optimized_fuel optimized_distance (capacity ship_info)
      (fuelType current_params) = Ok optimized_cii /\
    field result "recommendations" =
      Some (VList ((fuel_reduction current_params optimized_fuel
                      ++ distance_change current_params optimized_distance)
                     ++ recs)%list) /\
    (forall r,
       In r (fuel_reduction current_params optimized_fuel
               ++ distance_change current_params optimized_distance)%list ->
       field r "type" <> Some (VStr "fuel_switching")) /\
    (~ (fuelType current_params = "HFO" \/ fuelType current_params = "MDO"
        \/ fuelType current_params = "MGO") ->
     recs = []) /\
    (fuelType current_params = "HFO" \/ fuelType current_params = "MDO"
     \/ fuelType current_params = "MGO" ->
     exists alts,
       (forall fuel_type, In fuel_type ["LNG"; "Methanol"] ->
          exists alt_cii alt_rating,
            evaluated ship_info optimized_fuel optimized_distance required_cii
              fuel_type alt_cii alt_rating /\
            (In (alternative_entry fuel_type alt_rating alt_cii current_cii) alts <->
             better alt_rating current_rating \/
             (alt_rating = target /\ pf_ltb alt_cii optimized_cii = true))) /\
       (forall e, In e alts ->
          exists fuel_type,
            In fuel_type ["LNG"; "Methanol"] /\ field e "fuel" = Some (VStr fuel_type)) /\
       (alts = [] -> recs = []) /\
       (alts <> [] ->
        exists rec, recs = [rec] /\
          field rec "type" = Some (VStr "fuel_switching") /\
          field rec "alternatives" = Some (VList alts))).
Proof.
  intros H (cc' & rc' & cr' & P1 & P2 & P3 & P4).
  apply optimize_cii_outcome in H.
  destruct H as [cc rc tg H1 H2 H3 H4
                | cc rc cr tg tc res oc orat sw H1 H2 H3 Hne H4 H5 H6 H7 H8 H9].
  - rewrite H1 in P1. injection P1 as <-. rewrite H2 in P2. injection P2 as <-.
    rewrite H3 in P3. injection P3 as <-. now contradiction P4.
  - exists cc, rc, cr, tg, tc, res, (fst (Scipy.x res)), (snd (Scipy.x res)), oc, sw.
    repeat (split; [assumption|]).
    split; [now destruct (Scipy.x res)|].
    split; [assumption|].
    split; [unfold search_report; cbn [field assoc_get String.eqb Ascii.eqb Bool.eqb];
            rewrite app_assoc; reflexivity|].
    split; [intros r Hr; now apply (operational_types _ _ _ _ Hr)|].
    destruct (fuel_switching_shape _ _ _ _ _ _ _ _ _ _ H9) as [Hoff Hon].
    split.
    + intro Hn. apply Hoff.
      destruct (str_in (fuelType current_params) high_carbon_fuels) eqn:Es;
        [|reflexivity].
      apply str_in_high_carbon in Es. contradiction.
    + intro Hy. apply str_in_high_carbon in Hy.
      destruct (Hon Hy) as (alts & Halts & Hempty & Hone).
      exists alts. split; [|split; [|split; assumption]].
      * intros fuel_type Hin.
        destruct (alternatives_iff _ _ _ _ _ _ _ _ _ _ Halts fuel_type Hin)
          as (x & r & Hev & Hiff).
        exists x, r. split; [exact Hev|].
        rewrite Hiff. apply qualifies_iff.
        -- destruct Hev as [_ Hr]. exact (get_cii_rating_letter _ _ _ Hr).
        -- exact (get_cii_rating_letter _ _ _ H3).
      * intros e Hin.
        destruct (alternatives_sound _ _ _ _ _ _ _ _ _ _ Halts e Hin)
          as (f & x & r & Hf & _ & _ & ->).
        exists f. split; [exact Hf | reflexivity].
Qed.

Lemma instance_rated_D_searches :
  takes_search_path Instance.ext Instance.rated_D_params Instance.lng_carrier.
Proof.
  do 3 eexists.
  split; [reflexivity|]. split; [reflexivity|]. split; [reflexivity|].
  discriminate.
Defined.

Lemma fuel_switching_evaluation_witness :
  exists result recs,
    optimize_cii Instance.ext 0%Z Instance.rated_D_params Instance.lng_carrier None
    = Ok result /\
    (recs = [] \/
     exists rec, recs = [rec] /\ field rec "type" = Some (VStr "fuel_switching")).
Proof.
  eexists. 
  edestruct (fuel_switching_evaluation Instance.ext 0%Z Instance.rated_D_params
               Instance.lng_carrier None)
    as (cc & rc & cr & tg & tc & res & ofu & od & oc & recs & _ & _ & _ & _ & _ & _ & _
        & _ & _ & _ & Hon);
    [vm_compute; reflexivity | exact instance_rated_D_searches |].
  exists recs. split; [vm_compute; reflexivity|].
  destruct Hon as (alts & _ & _ & Hempty & Hone); [left; reflexivity|].
  destruct alts as [|e rest].
  - left. now apply Hempty.
  - right. destruct Hone as (rec & Hrec & Hty & _); [discriminate|].
    exists rec. now split.
Defined.

Lemma offered_fuels_candidates (ext : Externals) (g : Scipy.rng_state)
  (current_params : OperationalParams) (ship_info : ShipInfo)
  (target_rating : option string) (result : pyval) :
  optimize_cii ext g current_params ship_info target_rating = Ok result ->
  forall f, In f (offered_fuels result) -> In f candidate_fuels.
Proof.
  intros H f Hf. apply optimize_cii_outcome in H.
  destruct H as [cc rc tg H1 H2 H3 H4
                | cc rc cr tg tc res oc orat sw H1 H2 H3 Hne H4 H5 H6 H7 H8 H9].
  - contradiction.
  - unfold offered_fuels, search_report in Hf.
    cbn [field assoc_get String.eqb Ascii.eqb Bool.eqb] in Hf.
    apply in_flat_map in Hf. destruct Hf as (rec & Hrec & Hf).
    rewrite app_assoc in Hrec. apply in_app_or in Hrec. destruct Hrec as [Hrec|Hrec].
    + destruct (operational_types _ _ _ _ Hrec) as [_ Hnone].
      unfold alternatives_of in Hf. rewrite Hnone in Hf. contradiction.
    + destruct (fuel_switching_shape _ _ _ _ _ _ _ _ _ _ H9) as [Hoff Hon].
      destruct (str_in (fuelType current_params) high_carbon_fuels).
      * destruct (Hon eq_refl) as (alts & Halts & Hempty & Hone).
        destruct alts as [|e0 rest].
        -- rewrite (Hempty eq_refl) in Hrec. contradiction.
        -- destruct Hone as (rec' & -> & _ & Halt); [discriminate|].
           destruct Hrec as [<-|[]].
           unfold alternatives_of in Hf. rewrite Halt in Hf.
           apply in_flat_map in Hf. destruct Hf as (e & He & Hf).
           destruct (alternatives_sound _ _ _ _ _ _ _ _ _ _ Halts e He)
             as (c & x & r & Hc & _ & _ & ->).
           unfold fuel_of in Hf. cbn in Hf. destruct Hf as [<-|[]]. exact Hc.
      * rewrite (Hoff eq_refl) in Hrec. contradiction.
Qed.




(** ** Rounding *)




Lemma py_round_fin (q : Q) : py_round (Fin q) 2 = Fin (round2 q).
Proof. reflexivity. Qed.



(** ** SearchEngine *)



(** With an original distance of 1000.008 the upper bound is 1200.0096; a
    search that ends on it returns a distanceTraveled of 1200.01. *)
Example rounded_distance_exceeds_bound :
  exists result d,
    optimize_cii Instance.ext 0%Z Instance.fractional_params
      Instance.small_lng_carrier None = Ok result /\
    optimized_param result "distanceTraveled" = Some (VNum (Fin d)) /\
    d == 1200.01 /\
    ~ d <= 1.2 * 1000.008.
Proof.
  eexists. eexists. split; [vm_compute; reflexivity|].
  split; [reflexivity|]. split; [reflexivity|].
  intro H. apply Qle_bool_iff in H. vm_compute in H. discriminate.
Qed.







(** * Further properties of the rating model *)

(** On numbers the rank of the rating follows the attained value. *)
Lemma rating_rank_monotone (attained1 attained2 required : Q) :
  0 < required -> attained1 <= attained2 ->
  exists r1 r2,
    get_cii_rating attained1 required = Ok r1 /\
    get_cii_rating attained2 required = Ok r2 /\
    (rating_rank r1 <= rating_rank r2)%nat.
Proof.
  intros Hr Hle.
  pose proof (Qpos_nonzero _ Hr) as Hnz.
  rewrite !(get_cii_rating_fin _ _ Hnz).
  assert (Hq : attained1 / required <= attained2 / required).
  { unfold Qdiv. apply Qmult_le_compat_r; [exact Hle|].
    apply Qlt_le_weak, Qinv_lt_0_compat, Hr. }
  do 2 eexists. split; [reflexivity|]. split; [reflexivity|].
  set (q1 := attained1 / required) in *. set (q2 := attained2 / required) in *.
  destruct (Qle_bool q1 0.88) eqn:A1; [vm_compute; lia|].
  destruct (Qle_bool q2 0.88) eqn:A2;
    [apply Qle_bool_false in A1; apply Qle_bool_iff in A2; lra|].
  destruct (Qle_bool q1 0.94) eqn:B1;
    [repeat (destruct (Qle_bool q2 _)); vm_compute; lia|].
  destruct (Qle_bool q2 0.94) eqn:B2;
    [apply Qle_bool_false in B1; apply Qle_bool_iff in B2; lra|].
  destruct (Qle_bool q1 1.06) eqn:C1;
    [repeat (destruct (Qle_bool q2 _)); vm_compute; lia|].
  destruct (Qle_bool q2 1.06) eqn:C2;
    [apply Qle_bool_false in C1; apply Qle_bool_iff in C2; lra|].
  destruct (Qle_bool q1 1.18) eqn:D1;
    [repeat (destruct (Qle_bool q2 _)); vm_compute; lia|].
  destruct (Qle_bool q2 1.18) eqn:D2;
    [apply Qle_bool_false in D1; apply Qle_bool_iff in D2; lra|].
  vm_compute; lia.
Qed.



(** X3.  A ratio that is nan is rated 'E': this is the rating of a nan
    attained value against a non-zero required value, of any attained value
    against a nan required value, and of two infinite values. *)
Theorem get_cii_rating_nan_is_E (attained required : pyfloat) (s1 s2 : bool) :
  (is_zero required = false -> get_cii_rating NaN required = Ok "E") /\
  get_cii_rating attained NaN = Ok "E" /\
  get_cii_rating (if s1 then PInf else NInf) (if s2 then PInf else NInf) = Ok "E".
Proof.
  split; [|split].
  - intro Z. unfold get_cii_rating, py_div. rewrite Z. reflexivity.
  - destruct attained; reflexivity.
  - destruct s1, s2; reflexivity.
Qed.

Lemma get_cii_rating_nan_is_E_witness :
  get_cii_rating NaN 3.708 = Ok "E".
Proof.
  destruct (get_cii_rating_nan_is_E NaN 3.708 true true) as (H & _ & _).
  apply H. reflexivity.
Defined.



(** X5.  A fuel type that is not a key of CO2_FACTORS is computed as 'HFO'
    (the default factor 3.114 is the one of 'HFO'), and 'MDO' and 'MGO' give
    the same value. *)
Theorem calculate_cii_unknown_fuel (fuel distance capacity : pyfloat)
  (fuel_type : string) :
  (dict_mem String.eqb CO2_FACTORS fuel_type = false ->
   calculate_cii fuel distance capacity fuel_type
   = calculate_cii fuel distance capacity "HFO") /\
  calculate_cii fuel distance capacity "MDO"
  = calculate_cii fuel distance capacity "MGO".
Proof.
  split; [|reflexivity].
  intro H. unfold calculate_cii, dict_get. unfold dict_mem in H.
  destruct (assoc_get String.eqb CO2_FACTORS fuel_type); [discriminate|].
  reflexivity.
Qed.

Lemma calculate_cii_unknown_fuel_witness :
  calculate_cii 18500 95000 85000 "Hydrogen" = calculate_cii 18500 95000 85000 "HFO".
Proof.
  destruct (calculate_cii_unknown_fuel 18500 95000 85000 "Hydrogen") as [H _].
  apply H. reflexivity.
Defined.

(** ** The required CII *)

Lemma baseline_a_pos (ship_type : string) : 0 < a (baseline_of ship_type).
Proof.
  cbv beta iota delta [baseline_of dict_get assoc_get CII_BASELINES].
  repeat match goal with
    | |- context [String.eqb ?s ship_type] => destruct (String.eqb s ship_type)
    end;
    reflexivity.
Qed.

(** [calculate_required_cii] in closed form: it fails exactly as the power
    does. *)
Lemma calculate_required_cii_eq (ext : Externals) (ship_type : string)
  (capacity : pyfloat) (year : Z) :
  calculate_required_cii ext ship_type capacity year =
  match float_pow ext capacity (pf_neg (c (baseline_of ship_type))) with
  | Ok p => Ok (pf_mul (pf_mul (a (baseline_of ship_type)) p)
                  (pf_sub 1 (reduction_of year)))
  | Raise e => Raise e
  end.
Proof.
  unfold calculate_required_cii. cbn [dict_item assoc_get CII_BASELINES String.eqb bind].
  change (dict_item String.eqb CII_BASELINES "Bulk Carrier")
    with (@Ok Baseline {| a := 4745; c := 0.622 |}).
  cbn [bind]. fold (baseline_of ship_type). fold (reduction_of year).
  destruct (float_pow ext capacity _); reflexivity.
Qed.

Lemma reduction_outside_schedule (year : Z) :
  (year < 2023 \/ 2040 < year)%Z -> reduction_of year = 0.09.
Proof.
  intro H. cbv beta iota delta [reduction_of dict_get assoc_get CII_REDUCTION_FACTORS].
  repeat match goal with
    | |- context [Z.eqb ?k year] =>
        replace (Z.eqb k year) with false by (symmetry; apply Z.eqb_neq; lia)
    end.
  reflexivity.
Qed.

Lemma reduction_in_schedule (year : Z) :
  (2023 <= year <= 2040)%Z ->
  reduction_of year == 0.05 + 0.02 * inject_Z (year - 2023).
Proof.
  intro H.
  assert (Hy : exists n : nat, (n <= 17)%nat /\ year = (2023 + Z.of_nat n)%Z).
  { exists (Z.to_nat (year - 2023)). split; lia. }
  destruct Hy as (n & Hn & ->).
  do 18 (destruct n as [|n]; [reflexivity|]). lia.
Qed.

(** X6.  [calculate_required_cii] falls back silently: a ship type that is
    not a key of CII_BASELINES is computed as 'Bulk Carrier', and a year
    before 2023 or after 2040 is computed as 2025. *)
Theorem calculate_required_cii_fallbacks (ext : Externals) (ship_type : string)
  (capacity : pyfloat) (year : Z) :
  (dict_mem String.eqb CII_BASELINES ship_type = false ->
   calculate_required_cii ext ship_type capacity year
   = calculate_required_cii ext "Bulk Carrier" capacity year) /\
  ((year < 2023 \/ 2040 < year)%Z ->
   calculate_required_cii ext ship_type capacity year
   = calculate_required_cii ext ship_type capacity 2025).
Proof.
  split.
  - intro H. rewrite !calculate_required_cii_eq.
    replace (baseline_of ship_type) with (baseline_of "Bulk Carrier"); [reflexivity|].
    unfold baseline_of, dict_get. unfold dict_mem in H.
    destruct (assoc_get String.eqb CII_BASELINES ship_type); [discriminate|].
    reflexivity.
  - intro H. rewrite !calculate_required_cii_eq.
    rewrite (reduction_outside_schedule _ H). reflexivity.
Qed.

Lemma calculate_required_cii_fallbacks_witness :
  calculate_required_cii Instance.ext "Ferry" 85000 2050
  = calculate_required_cii Instance.ext "Bulk Carrier" 85000 2025.
Proof.
  destruct (calculate_required_cii_fallbacks Instance.ext "Ferry" 85000 2050)
    as [H1 _].
  destruct (calculate_required_cii_fallbacks Instance.ext "Bulk Carrier" 85000 2050)
    as [_ H2].
  rewrite H1 by reflexivity. apply H2. right. reflexivity.
Defined.

Lemma calculate_required_cii_fin (ext : Externals) (ship_type : string)
  (capacity : pyfloat) (year : Z) (p : Q) :
  float_pow ext capacity (pf_neg (c (baseline_of ship_type))) = Ok (Fin p) ->
  calculate_required_cii ext ship_type capacity year
  = Ok (Fin (a (baseline_of ship_type) * p * (1 + - reduction_of year))).
Proof.
  intro H. rewrite calculate_required_cii_eq, H. reflexivity.
Qed.

Lemma reduction_bounds (year : Z) : 0.05 <= reduction_of year /\ reduction_of year <= 0.39.
Proof.
  destruct (Z_lt_le_dec year 2023) as [Hlo|Hlo].
  - rewrite reduction_outside_schedule by lia. split; discriminate.
  - destruct (Z_lt_le_dec 2040 year) as [Hhi|Hhi].
    + rewrite reduction_outside_schedule by lia. split; discriminate.
    + rewrite (reduction_in_schedule year) by lia.
      assert (H1 : 0 <= inject_Z (year - 2023))
        by (change 0 with (inject_Z 0); rewrite <- Zle_Qle; lia).
      assert (H2 : inject_Z (year - 2023) <= 17)
        by (change 17 with (inject_Z 17); rewrite <- Zle_Qle; lia).
      split; lra.
Qed.

(** X7.  When the power is a non-negative number, the required CII does
    not grow from one year of the schedule (2023-2040) to a later one; a
    year after 2040 falls back to the value of 2025, which is at least the
    value of every scheduled year from 2025 on. *)
Theorem required_cii_over_years (ext : Externals) (ship_type : string)
  (capacity : pyfloat) (p : Q) (year1 year2 : Z) :
  float_pow ext capacity (pf_neg (c (baseline_of ship_type))) = Ok (Fin p) ->
  0 <= p -> (2023 <= year1)%Z -> (year1 <= year2)%Z ->
  exists r1 r2,
    calculate_required_cii ext ship_type capacity year1 = Ok (Fin r1) /\
    calculate_required_cii ext ship_type capacity year2 = Ok (Fin r2) /\
    ((year2 <= 2040)%Z -> r2 <= r1) /\
    ((2025 <= year1 <= 2040)%Z -> (2040 < year2)%Z -> r1 <= r2).
Proof.
  intros Hp Hp0 H1 H12.
  do 2 eexists.
  split; [apply (calculate_required_cii_fin _ _ _ _ _ Hp)|].
  split; [apply (calculate_required_cii_fin _ _ _ _ _ Hp)|].
  pose proof (baseline_a_pos ship_type) as Ha.
  set (k := a (baseline_of ship_type) * p).
  assert (Hk : 0 <= k) by (unfold k; nra).
  split.
  - intro H2.
    rewrite (reduction_in_schedule year1), (reduction_in_schedule year2) by lia.
    assert (Hz : inject_Z (year1 - 2023) <= inject_Z (year2 - 2023))
      by (rewrite <- Zle_Qle; lia).
    nra.
  - intros H1' H2.
    rewrite (reduction_in_schedule year1) by lia.
    rewrite (reduction_outside_schedule year2) by lia.
    assert (Hz : 2 <= inject_Z (year1 - 2023))
      by (change 2 with (inject_Z 2); rewrite <- Zle_Qle; lia).
    nra.
Qed.

Lemma required_cii_over_years_witness :
  exists r1 r2,
    calculate_required_cii Instance.ext "LNG Carrier" 85000 2030 = Ok (Fin r1) /\
    calculate_required_cii Instance.ext "LNG Carrier" 85000 2041 = Ok (Fin r2) /\
    r1 <= r2.
Proof.
  destruct (required_cii_over_years Instance.ext "LNG Carrier" 85000 1 2030 2041)
    as (r1 & r2 & H1 & H2 & _ & Hle).
  - reflexivity.
  - discriminate.
  - discriminate.
  - discriminate.
  - exists r1, r2. split; [exact H1|]. split; [exact H2|].
    apply Hle; [split; discriminate | reflexivity].
Defined.

(** ** The target rating *)

(** X8.  With no target given, the target of a rated request is the next
    better band ('A' staying 'A'), so that off 'A' it is strictly better
    than the current rating; a given target is taken as it is, whether it is
    a rating letter or not. *)
Theorem resolve_target_rating_default (current_rating : string) :
  In current_rating rating_letters ->
  (exists target,
     resolve_target_rating current_rating None = Ok target /\
     In target rating_letters /\
     rating_rank target = Nat.pred (rating_rank current_rating) /\
     (current_rating <> "A" -> better target current_rating)) /\
  (forall t, resolve_target_rating current_rating (Some t) = Ok t).
Proof.
  intro Hin. split; [|reflexivity].
  unfold rating_letters in Hin. simpl in Hin.
  destruct Hin as [<-|[<-|[<-|[<-|[<-|[]]]]]];
    eexists; (split; [reflexivity|]); (split; [simpl; tauto|]);
    (split; [reflexivity|]); intro Hne; unfold better;
    first [now contradiction Hne | vm_compute; lia].
Qed.

Lemma resolve_target_rating_default_witness :
  exists target, resolve_target_rating "D" None = Ok target /\ better target "D".
Proof.
  destruct (resolve_target_rating_default "D") as ((t & H1 & _ & _ & H2) & _).
  - simpl. tauto.
  - exists t. split; [exact H1|]. apply H2. discriminate.
Defined.

(** X9.  When the power operator returns a positive number, the required
    CII is a positive number: every baseline [a] is positive and every
    reduction factor lies between 0.05 and 0.39. *)
Theorem required_cii_positive (ext : Externals) (ship_type : string)
  (capacity : pyfloat) (year : Z) (p : Q) :
  float_pow ext capacity (pf_neg (c (baseline_of ship_type))) = Ok (Fin p) ->
  0 < p ->
  exists r,
    calculate_required_cii ext ship_type capacity year = Ok (Fin r) /\
    0.61 * (a (baseline_of ship_type) * p) <= r /\
    r <= 0.95 * (a (baseline_of ship_type) * p) /\
    0 < r.
Proof.
  intros Hp Hpos. eexists.
  split; [apply (calculate_required_cii_fin _ _ _ _ _ Hp)|].
  pose proof (baseline_a_pos ship_type) as Ha.
  destruct (reduction_bounds year) as [R1 R2].
  assert (Hk : 0 < a (baseline_of ship_type) * p) by nra.
  set (k := a (baseline_of ship_type) * p) in *.
  repeat split; nra.
Qed.

Lemma required_cii_positive_witness :
  exists r,
    calculate_required_cii Instance.ext "LNG Carrier" 85000 2025 = Ok (Fin r) /\
    0 < r.
Proof.
  destruct (required_cii_positive Instance.ext "LNG Carrier" 85000 2025 1)
    as (r & H & _ & _ & Hpos).
  - reflexivity.
  - reflexivity.
  - exists r. split; assumption.
Defined.

(** ** How [optimize_cii] can fail *)

Lemma get_cii_rating_returns (attained required : pyfloat) :
  is_zero required = false ->
  exists r, get_cii_rating attained required = Ok r /\ In r rating_letters.
Proof.
  intro Z. unfold get_cii_rating, py_div. rewrite Z. cbn [bind].
  repeat (destruct (pf_leb _ _); [eexists; split; [reflexivity | simpl; tauto]|]).
  eexists; split; [reflexivity | simpl; tauto].
Qed.









(** * Further properties of the search path *)

(** On the search path the result is the report of a run whose steps all
    returned. *)
Lemma search_path_run (ext : Externals) (g : Scipy.rng_state)
  (current_params : OperationalParams) (ship_info : ShipInfo)
  (target_rating : option string) (result : pyval) :
  optimize_cii ext g current_params ship_info target_rating = Ok result ->
  takes_search_path ext current_params ship_info ->
  exists current_cii required_cii current_rating target target_cii found
         optimized_cii optimized_rating switching,
    calculate_cii (annualFuelConsumption current_params)
      (distanceTraveled current_params) (capacity ship_info)
      (fuelType current_params) = Ok current_cii /\
    calculate_required_cii ext (shipType ship_info) (capacity ship_info)
      (year ship_info) = Ok required_cii /\
    get_cii_rating current_cii required_cii = Ok current_rating /\
    current_rating <> "A" /\
    resolve_target_rating current_rating target_rating = Ok target /\
    get_target_cii_for_rating required_cii target = Ok target_cii /\
    differential_evolution ext g (objective current_params ship_info target_cii)
      (search_bounds current_params) search_options = Ok found /\
    calculate_cii (fst (Scipy.x found)) (snd (Scipy.x found))
      (capacity ship_info) (fuelType current_params) = Ok optimized_cii /\
    get_cii_rating optimized_cii required_cii = Ok optimized_rating /\
    fuel_switching current_params ship_info
      (fst (Scipy.x found)) (snd (Scipy.x found))
      current_cii required_cii optimized_cii current_rating target
      = Ok switching /\
    result =
      search_report current_params (Scipy.success found)
        current_rating target optimized_rating
        current_cii target_cii optimized_cii required_cii
        (fst (Scipy.x found)) (snd (Scipy.x found))
        (fuel_reduction current_params (fst (Scipy.x found))
           ++ distance_change current_params (snd (Scipy.x found))
           ++ switching)%list.
Proof.
  intros H (cc' & rc' & cr' & P1 & P2 & P3 & P4).
  apply optimize_cii_outcome in H.
  destruct H as [cc rc tg H1 H2 H3 H4
                | cc rc cr tg tc res oc orat sw H1 H2 H3 Hne H4 H5 H6 H7 H8 H9].
  - rewrite H1 in P1. injection P1 as <-. rewrite H2 in P2. injection P2 as <-.
    rewrite H3 in P3. injection P3 as <-. now contradiction P4.
  - exists cc, rc, cr, tg, tc, res, oc, orat, sw.
    repeat (split; [assumption|]). reflexivity.
Qed.

Lemma fuel_reduction_shape (current_params : OperationalParams)
  (optimized_fuel : pyfloat) :
  fuel_reduction current_params optimized_fuel = [] \/
  exists r, fuel_reduction current_params optimized_fuel = [r] /\
            field r "type" = Some (VStr "fuel_reduction").
Proof.
  unfold fuel_reduction. destruct (pf_gtb _ _); [right | left; reflexivity].
  eexists. split; reflexivity.
Qed.

Lemma distance_change_shape (current_params : OperationalParams)
  (optimized_distance : pyfloat) :
  distance_change current_params optimized_distance = [] \/
  exists r, distance_change current_params optimized_distance = [r] /\
            (field r "type" = Some (VStr "distance_increase") \/
             field r "type" = Some (VStr "distance_reduction")).
Proof.
  unfold distance_change.
  destruct (pf_gtb (py_abs _) _); [right | left; reflexivity].
  destruct (pf_gtb _ _); eexists; (split; [reflexivity|]);
    [left | right]; reflexivity.
Qed.

(** X11.  The recommendations of a result are, in this order, at most one
    fuel_reduction, at most one distance_increase or distance_reduction
    (never both), and at most one fuel_switching: never more than three,
    and none at all on the short circuit. *)
Theorem recommendations_structure (ext : Externals) (g : Scipy.rng_state)
  (current_params : OperationalParams) (ship_info : ShipInfo)
  (target_rating : option string) (result : pyval) :
  optimize_cii ext g current_params ship_info target_rating = Ok result ->
  exists fr dc sw,
    field result "recommendations" = Some (VList (fr ++ dc ++ sw)%list) /\
    (fr = [] \/
     exists r, fr = [r] /\ field r "type" = Some (VStr "fuel_reduction")) /\
    (dc = [] \/
     exists r, dc = [r] /\
       (field r "type" = Some (VStr "distance_increase") \/
        field r "type" = Some (VStr "distance_reduction"))) /\
    (sw = [] \/
     exists r, sw = [r] /\ field r "type" = Some (VStr "fuel_switching")) /\
    (List.length (fr ++ dc ++ sw)%list <= 3)%nat.
Proof.
  intro H. apply optimize_cii_outcome in H.
  destruct H as [cc rc tg H1 H2 H3 H4
                | cc rc cr tg tc res oc orat sw H1 H2 H3 Hne H4 H5 H6 H7 H8 H9].
  - exists [], [], []. split; [reflexivity|].
    repeat (split; [left; reflexivity|]). simpl. lia.
  - exists (fuel_reduction current_params (fst (Scipy.x res))),
           (distance_change current_params (snd (Scipy.x res))), sw.
    split; [reflexivity|].
    pose proof (fuel_reduction_shape current_params (fst (Scipy.x res))) as Sf.
    pose proof (distance_change_shape current_params (snd (Scipy.x res))) as Sd.
    assert (Ss : sw = [] \/
                 exists r, sw = [r] /\ field r "type" = Some (VStr "fuel_switching")).
    { destruct (fuel_switching_shape _ _ _ _ _ _ _ _ _ _ H9) as [Hoff Hon].
      destruct (str_in (fuelType current_params) high_carbon_fuels).
      - destruct (Hon eq_refl) as (alts & _ & Hempty & Hone).
        destruct alts as [|e0 rest]; [left; now apply Hempty|].
        right. destruct Hone as (r & Hr & Hty & _); [discriminate|].
        exists r. now split.
      - left. now apply Hoff. }
    split; [exact Sf|]. split; [exact Sd|]. split; [exact Ss|].
    rewrite !length_app.
    destruct Sf as [->|(r1 & -> & _)]; destruct Sd as [->|(r2 & -> & _)];
      destruct Ss as [->|(r3 & -> & _)]; simpl; lia.
Qed.

Lemma recommendations_structure_witness :
  exists result fr dc sw,
    optimize_cii Instance.ext 0%Z Instance.rated_D_params Instance.lng_carrier None
    = Ok result /\
    field result "recommendations" = Some (VList (fr ++ dc ++ sw)%list) /\
    (List.length (fr ++ dc ++ sw)%list <= 3)%nat.
Proof.
  eexists.
  edestruct (recommendations_structure Instance.ext 0%Z Instance.rated_D_params
               Instance.lng_carrier None)
    as (fr & dc & sw & H1 & _ & _ & _ & H2); [vm_compute; reflexivity|].
  exists fr, dc, sw. split; [vm_compute; reflexivity|]. split; assumption.
Defined.

(** ** The 1% thresholds of the operational recommendations *)

Lemma np_div_fin (p q : Q) : ~ q == 0 -> np_div (Fin p) (Fin q) = Fin (p / q).
Proof.
  intro H. unfold np_div. rewrite (is_zero_fin_false q H). reflexivity.
Qed.

(** X12.  For a positive original fuel consumption, a fuel_reduction
    recommendation is emitted exactly when the optimized fuel is more than
    1% below the original; it then reports both values rounded to 2
    decimals.  With a zero original and a zero optimized fuel the percentage
    is nan and nothing is emitted. *)
Theorem fuel_reduction_threshold (current_params : OperationalParams)
  (fuel optimized_fuel : Q) :
  annualFuelConsumption current_params = Fin fuel ->
  (0 < fuel ->
   (optimized_fuel < 0.99 * fuel ->
    exists r,
      fuel_reduction current_params optimized_fuel = [r] /\
      field r "type" = Some (VStr "fuel_reduction") /\
      field r "from" = Some (VNum (Fin (round2 fuel))) /\
      field r "to" = Some (VNum (Fin (round2 optimized_fuel)))) /\
   (0.99 * fuel <= optimized_fuel ->
    fuel_reduction current_params optimized_fuel = [])) /\
  (fuel == 0 -> optimized_fuel == 0 ->
   fuel_reduction current_params optimized_fuel = []).
Proof.
  intro Hfuel. unfold fuel_reduction. rewrite Hfuel.
  cbn [pf_sub pf_neg pf_add]. split.
  - intro Hpos. rewrite (np_div_fin _ _ (Qpos_nonzero _ Hpos)).
    cbn [pf_mul]. unfold pf_gtb. cbn [pf_ltb].
    set (pct := (fuel + - optimized_fuel) / fuel * 100).
    assert (E : pct * fuel == (fuel - optimized_fuel) * 100)
      by (unfold pct; field; apply Qpos_nonzero; exact Hpos).
    split.
    + intro Hlt.
      assert (B : Qle_bool pct 1 = false).
      { apply Qle_bool_false.
        apply (Qmult_lt_r _ _ fuel Hpos). rewrite E. lra. }
      rewrite B. cbn [negb]. eexists. split; [reflexivity|].
      split; [reflexivity|]. split; reflexivity.
    + intro Hle.
      assert (B : Qle_bool pct 1 = true).
      { apply Qle_bool_iff.
        apply (Qmult_le_r _ _ fuel Hpos). rewrite E. lra. }
      rewrite B. reflexivity.
  - intros Hz Ho. unfold np_div.
    assert (Z : is_zero (Fin fuel) = true) by (apply is_zero_fin; exact Hz).
    rewrite Z. unfold signed_inf, Qsign.
    assert (C : Qcompare 0 (fuel + - optimized_fuel) = Eq)
      by (apply Qeq_alt; lra).
    rewrite C. reflexivity.
Qed.

Lemma fuel_reduction_threshold_witness :
  exists r,
    fuel_reduction Instance.rated_D_params 17500 = [r] /\
    field r "type" = Some (VStr "fuel_reduction").
Proof.
  destruct (fuel_reduction_threshold Instance.rated_D_params 25000 17500)
    as [H _]; [reflexivity|].
  destruct H as [H _]; [reflexivity|].
  destruct H as (r & H1 & H2 & _); [reflexivity|].
  exists r. split; assumption.
Defined.

(** X13.  For a positive original distance, distance_increase is emitted
    exactly when the optimized distance is more than 1% above the original,
    distance_reduction exactly when it is more than 1% below, and nothing in
    between.  With a zero original and a zero optimized distance the
    percentage is nan and nothing is emitted. *)
Theorem distance_change_threshold (current_params : OperationalParams)
  (dist optimized_distance : Q) :
  distanceTraveled current_params = Fin dist ->
  (0 < dist ->
   (1.01 * dist < optimized_distance ->
    exists r,
      distance_change current_params optimized_distance = [r] /\
      field r "type" = Some (VStr "distance_increase")) /\
   (optimized_distance < 0.99 * dist ->
    exists r,
      distance_change current_params optimized_distance = [r] /\
      field r "type" = Some (VStr "distance_reduction")) /\
   (0.99 * dist <= optimized_distance -> optimized_distance <= 1.01 * dist ->
    distance_change current_params optimized_distance = [])) /\
  (dist == 0 -> optimized_distance == 0 ->
   distance_change current_params optimized_distance = []).
Proof.
  intro Hdist. unfold distance_change. rewrite Hdist.
  cbn [pf_sub pf_neg pf_add]. split.
  - intro Hpos. rewrite (np_div_fin _ _ (Qpos_nonzero _ Hpos)).
    cbn [pf_mul py_abs]. unfold pf_gtb. cbn [pf_ltb].
    set (pct := (optimized_distance + - dist) / dist * 100).
    assert (E : pct * dist == (optimized_distance - dist) * 100)
      by (unfold pct; field; apply Qpos_nonzero; exact Hpos).
    assert (Hup : 1 < pct <-> 1.01 * dist < optimized_distance).
    { rewrite <- (Qmult_lt_r 1 pct dist Hpos). rewrite E. split; intro; lra. }
    assert (Hdn : pct < - (1) <-> optimized_distance < 0.99 * dist).
    { rewrite <- (Qmult_lt_r pct (- (1)) dist Hpos). rewrite E. split; intro; lra. }
    split; [|split].
    + intro Hlt. apply Hup in Hlt.
      assert (B : Qle_bool (Qabs pct) 1 = false).
      { apply Qle_bool_false. rewrite Qabs_pos by lra. exact Hlt. }
      assert (B0 : Qle_bool pct 0 = false) by (apply Qle_bool_false; lra).
      rewrite B, B0. cbn [negb]. eexists. split; reflexivity.
    + intro Hlt. apply Hdn in Hlt.
      assert (B : Qle_bool (Qabs pct) 1 = false).
      { apply Qle_bool_false. rewrite Qabs_neg by lra. lra. }
      assert (B0 : Qle_bool pct 0 = true) by (apply Qle_bool_iff; lra).
      rewrite B, B0. cbn [negb]. eexists. split; reflexivity.
    + intros Hlo Hhi.
      assert (H1 : pct <= 1).
      { apply Qnot_lt_le. intro C. apply Hup in C. lra. }
      assert (H2 : - (1) <= pct).
      { apply Qnot_lt_le. intro C. apply Hdn in C. lra. }
      assert (B : Qle_bool (Qabs pct) 1 = true).
      { apply Qle_bool_iff. apply Qabs_Qle_condition. split; assumption. }
      rewrite B. reflexivity.
  - intros Hz Ho. unfold np_div.
    assert (Z : is_zero (Fin dist) = true) by (apply is_zero_fin; exact Hz).
    rewrite Z. unfold signed_inf, Qsign.
    assert (C : Qcompare 0 (optimized_distance + - dist) = Eq)
      by (apply Qeq_alt; lra).
    rewrite C. reflexivity.
Qed.

Lemma distance_change_threshold_witness :
  exists r,
    distance_change Instance.rated_D_params 114000 = [r] /\
    field r "type" = Some (VStr "distance_increase").
Proof.
  destruct (distance_change_threshold Instance.rated_D_params 95000 114000)
    as [H _]; [reflexivity|].
  destruct H as [H _]; [reflexivity|].
  apply H. reflexivity.
Defined.

(** ** Monotonicity of the rating *)

(** X1.  For a positive required value the rating never improves when the
    attained value grows: attained1 <= attained2 gives a rating for
    attained1 at least as good as the one for attained2, the infinity
    sentinel counting as the greatest attained value. *)
Theorem get_cii_rating_monotone (attained1 attained2 : pyfloat) (required : Q) :
  0 < required ->
  pf_leb attained1 attained2 = true ->
  exists r1 r2,
    get_cii_rating attained1 required = Ok r1 /\
    get_cii_rating attained2 required = Ok r2 /\
    (rating_rank r1 <= rating_rank r2)%nat.
Proof.
  intros Hr Hle.
  assert (Z : is_zero (Fin required) = false)
    by (apply is_zero_fin_false, Qpos_nonzero, Hr).
  assert (Hc : Qcompare 0 required = Lt) by exact Hr.
  assert (HE : get_cii_rating PInf required = Ok "E").
  { unfold get_cii_rating, py_div. rewrite Z. cbn [bind pf_div_nz].
    unfold signed_inf, Qsign. rewrite Hc. reflexivity. }
  assert (HA : get_cii_rating NInf required = Ok "A").
  { unfold get_cii_rating, py_div. rewrite Z. cbn [bind pf_div_nz].
    unfold signed_inf, Qsign. rewrite Hc. reflexivity. }
  assert (Hrank : forall r, In r rating_letters -> (rating_rank r <= 4)%nat).
  { intros r Hin. unfold rating_letters in Hin. simpl in Hin.
    destruct Hin as [<-|[<-|[<-|[<-|[<-|[]]]]]]; vm_compute; lia. }
  destruct attained1 as [q1| | |], attained2 as [q2| | |];
    cbn [pf_leb] in Hle; try discriminate.
  - apply rating_rank_monotone; [exact Hr | now apply Qle_bool_iff].
  - destruct (get_cii_rating_returns q1 required Z) as (r1 & H1 & Hin).
    exists r1, "E". split; [exact H1|]. split; [exact HE|].
    change (rating_rank "E") with 4%nat. now apply Hrank.
  - exists "E", "E". split; [exact HE|]. split; [exact HE|]. lia.
  - destruct (get_cii_rating_returns q2 required Z) as (r2 & H2 & _).
    exists "A", r2. split; [exact HA|]. split; [exact H2|].
    change (rating_rank "A") with 0%nat. lia.
  - exists "A", "E". split; [exact HA|]. split; [exact HE|]. vm_compute; lia.
  - exists "A", "A". split; [exact HA|]. split; [exact HA|]. lia.
Qed.

Lemma get_cii_rating_monotone_witness :
  exists r1 r2,
    get_cii_rating 3.5 3.708 = Ok r1 /\
    get_cii_rating PInf 3.708 = Ok r2 /\
    (rating_rank r1 <= rating_rank r2)%nat.
Proof.
  apply (get_cii_rating_monotone 3.5 PInf 3.708).
  - reflexivity.
  - reflexivity.
Defined.

(** ** The short circuit *)

(** X14.  On an 'A'-rated request the target rating passed by the caller
    has no effect: every target gives the same result. *)
Theorem short_circuit_ignores_target (ext : Externals) (g : Scipy.rng_state)
  (current_params : OperationalParams) (ship_info : ShipInfo)
  (current_cii required_cii : pyfloat) (target1 target2 : option string) :
  calculate_cii (annualFuelConsumption current_params)
    (distanceTraveled current_params) (capacity ship_info)
    (fuelType current_params) = Ok current_cii ->
  calculate_required_cii ext (shipType ship_info) (capacity ship_info)
    (year ship_info) = Ok required_cii ->
  get_cii_rating current_cii required_cii = Ok "A" ->
  optimize_cii ext g current_params ship_info target1
  = optimize_cii ext g current_params ship_info target2.
Proof.
  intros Hc Hr Ha.
  destruct (resolve_target_rating_A target1) as [t1 H1].
  destruct (resolve_target_rating_A target2) as [t2 H2].
  transitivity (Ok (already_optimal current_params "A" current_cii required_cii)).
  - apply optimize_cii_outcome. eapply short_circuit; eassumption.
  - symmetry. apply optimize_cii_outcome. eapply short_circuit; eassumption.
Qed.

Lemma short_circuit_ignores_target_witness :
  optimize_cii Instance.ext 0%Z Instance.rated_A_params Instance.lng_carrier (Some "C")
  = optimize_cii Instance.ext 0%Z Instance.rated_A_params Instance.lng_carrier None.
Proof.
  apply (short_circuit_ignores_target Instance.ext 0%Z Instance.rated_A_params
           Instance.lng_carrier
           (Fin (18500 * 3.114 / (85000 * 95000) * 1_000_000))
           (Fin (9.827 * 1 * (1 + - 0.09)))).
  - reflexivity.
  - reflexivity.
  - reflexivity.
Defined.



(** ** What the bounds give *)

(** The point found, for finite inputs and a search inside its bounds. *)
Lemma search_point_finite (ext : Externals) (g : Scipy.rng_state)
  (current_params : OperationalParams) (ship_info : ShipInfo)
  (target_cii : pyfloat) (found : Scipy.OptimizeResult) (fuel dist : Q) :
  de_respects_bounds ext ->
  annualFuelConsumption current_params = Fin fuel ->
  distanceTraveled current_params = Fin dist ->
  differential_evolution ext g (objective current_params ship_info target_cii)
    (search_bounds current_params) search_options = Ok found ->
  exists optimized_fuel optimized_distance : Q,
    Scipy.x found = (Fin optimized_fuel, Fin optimized_distance) /\
    fuel * 0.7 <= optimized_fuel /\ optimized_fuel <= fuel * 1.0 /\
    dist * 0.8 <= optimized_distance /\ optimized_distance <= dist * 1.2.
Proof.
  intros Hb Hfuel Hdist Hde.
  destruct (Hb _ _ _ _ _ Hde) as [Bf Bd].
  unfold search_bounds in Bf, Bd. rewrite Hfuel in Bf. rewrite Hdist in Bd.
  cbn [fst snd pf_mul] in Bf, Bd.
  destruct (within_fin _ _ _ Bf) as (ofu & Ef & Hf1 & Hf2).
  destruct (within_fin _ _ _ Bd) as (od & Ed & Hd1 & Hd2).
  exists ofu, od. split; [|repeat split; assumption].
  destruct (Scipy.x found) as [u v]. cbn [fst snd] in Ef, Ed. now subst.
Qed.



(** ** Which alternatives are offered *)

(** The fuels a search-path report offers are the candidates that pass the
    test of line 256, when the current fuel is a high-carbon one. *)
Lemma offered_fuels_iff (current_params : OperationalParams) (ship_info : ShipInfo)
  (success : bool) (current_rating target optimized_rating : string)
  (current_cii target_cii optimized_cii required_cii : pyfloat)
  (optimized_fuel optimized_distance : pyfloat) (switching : list pyval) :
  fuel_switching current_params ship_info optimized_fuel optimized_distance
    current_cii required_cii optimized_cii current_rating target = Ok switching ->
  forall f,
    In f (offered_fuels
            (search_report current_params success current_rating target
               optimized_rating current_cii target_cii optimized_cii required_cii
               optimized_fuel optimized_distance
               (fuel_reduction current_params optimized_fuel
                  ++ distance_change current_params optimized_distance
                  ++ switching)%list)) <->
    (str_in (fuelType current_params) high_carbon_fuels = true /\
     In f candidate_fuels /\
     exists alt_cii alt_rating,
       evaluated ship_info optimized_fuel optimized_distance required_cii
         f alt_cii alt_rating /\
       qualifies alt_rating current_rating target alt_cii optimized_cii = true).
Proof.
  intros Hsw f.
  destruct (fuel_switching_shape _ _ _ _ _ _ _ _ _ _ Hsw) as [Hoff Hon].
  unfold offered_fuels, search_report.
  cbn [field assoc_get String.eqb Ascii.eqb Bool.eqb].
  rewrite in_flat_map. split.
  - intros (rec & Hrec & Hf).
    rewrite app_assoc in Hrec. apply in_app_or in Hrec. destruct Hrec as [Hrec|Hrec].
    + destruct (operational_types _ _ _ _ Hrec) as [_ Hnone].
      unfold alternatives_of in Hf. rewrite Hnone in Hf. contradiction.
    + destruct (str_in (fuelType current_params) high_carbon_fuels);
        [|rewrite (Hoff eq_refl) in Hrec; contradiction].
      destruct (Hon eq_refl) as (alts & Halts & Hempty & Hone).
      destruct alts as [|e0 rest];
        [rewrite (Hempty eq_refl) in Hrec; contradiction|].
      destruct Hone as (rec' & -> & _ & Halt); [discriminate|].
      destruct Hrec as [<-|[]].
      unfold alternatives_of in Hf. rewrite Halt in Hf.
      apply in_flat_map in Hf. destruct Hf as (e & He & Hf).
      destruct (alternatives_sound _ _ _ _ _ _ _ _ _ _ Halts e He)
        as (c0 & x0 & r0 & Hc & Hev & Hq & ->).
      unfold fuel_of in Hf. cbn in Hf. destruct Hf as [<-|[]].
      split; [reflexivity|]. split; [exact Hc|]. exists x0, r0. now split.
  - intros (Hs & Hc & x0 & r0 & Hev & Hq).
    destruct (Hon Hs) as (alts & Halts & Hempty & Hone).
    destruct (alternatives_complete _ _ _ _ _ _ _ _ _ _ Halts f Hc)
      as (x1 & r1 & Hev1 & Hk).
    destruct (evaluated_functional _ _ _ _ _ _ _ _ _ Hev Hev1) as [<- <-].
    specialize (Hk Hq).
    destruct Hone as (rec & -> & _ & Halt);
      [intro C; rewrite C in Hk; contradiction|].
    exists rec. split; [apply in_or_app; right; apply in_or_app; right; now left|].
    unfold alternatives_of. rewrite Halt. apply in_flat_map.
    eexists. split; [exact Hk|]. now left.
Qed.

Lemma default_target_better (current_rating target : string) :
  In current_rating rating_letters -> current_rating <> "A" ->
  resolve_target_rating current_rating None = Ok target ->
  better target current_rating.
Proof.
  intros Hin Hne H. unfold rating_letters in Hin. simpl in Hin.
  destruct Hin as [<-|[<-|[<-|[<-|[<-|[]]]]]];
    try (now contradiction Hne);
    injection H as <-; unfold better; vm_compute; lia.
Qed.

(** With the default target the test of line 256 is its first half. *)
Lemma qualifies_default (alt_rating current_rating target : string)
  (alt_cii optimized_cii : pyfloat) :
  In alt_rating rating_letters -> In current_rating rating_letters ->
  current_rating <> "A" ->
  resolve_target_rating current_rating None = Ok target ->
  (qualifies alt_rating current_rating target alt_cii optimized_cii = true <->
   better alt_rating current_rating).
Proof.
  intros Ha Hc Hne Ht. rewrite (qualifies_iff _ _ _ _ _ Ha Hc). split.
  - intros [H|[-> _]]; [exact H|].
    exact (default_target_better _ _ Hc Hne Ht).
  - intro H. now left.
Qed.

(** X17.  When no target rating is given, the second half of the inclusion
    test never adds anything: on the search path of a high-carbon request a
    candidate fuel is offered exactly when its rating, at the point found,
    is strictly better than the current rating. *)
Theorem default_target_offers_better (ext : Externals) (g : Scipy.rng_state)
  (current_params : OperationalParams) (ship_info : ShipInfo) (result : pyval) :
  optimize_cii ext g current_params ship_info None = Ok result ->
  takes_search_path ext current_params ship_info ->
  fuelType current_params = "HFO" \/ fuelType current_params = "MDO"
  \/ fuelType current_params = "MGO" ->
  exists current_cii required_cii current_rating target_cii found,
    calculate_cii (annualFuelConsumption current_params)
      (distanceTraveled current_params) (capacity ship_info)
      (fuelType current_params) = Ok current_cii /\
    calculate_required_cii ext (shipType ship_info) (capacity ship_info)
      (year ship_info) = Ok required_cii /\
    get_cii_rating current_cii required_cii = Ok current_rating /\
    differential_evolution ext g (objective current_params ship_info target_cii)
      (search_bounds current_params) search_options = Ok found /\
    forall f, In f ["LNG"; "Methanol"] ->
      exists alt_cii alt_rating,
        evaluated ship_info (fst (Scipy.x found)) (snd (Scipy.x found))
          required_cii f alt_cii alt_rating /\
        (In f (offered_fuels result) <-> better alt_rating current_rating).
Proof.
  intros H Hs Hft.
  destruct (search_path_run _ _ _ _ _ _ H Hs)
    as (cc & rc & cr & tg & tc & found & oc & orat & sw
        & H1 & H2 & H3 & Hne & H4 & H5 & H6 & H7 & H8 & H9 & ->).
  exists cc, rc, cr, tc, found. repeat (split; [assumption|]).
  intros f Hf.
  pose proof (get_cii_rating_letter _ _ _ H3) as Hcr.
  destruct (fuel_switching_shape _ _ _ _ _ _ _ _ _ _ H9) as [_ Hon].
  apply str_in_high_carbon in Hft.
  destruct (Hon Hft) as (alts & Halts & _ & _).
  destruct (alternatives_complete _ _ _ _ _ _ _ _ _ _ Halts f Hf)
    as (x0 & r0 & Hev & _).
  exists x0, r0. split; [exact Hev|].
  pose proof (get_cii_rating_letter _ _ _ (proj2 Hev)) as Hr0.
  rewrite (offered_fuels_iff _ _ _ _ _ _ _ _ _ _ _ _ _ H9 f). split.
  - intros (_ & _ & x1 & r1 & Hev1 & Hq).
    destruct (evaluated_functional _ _ _ _ _ _ _ _ _ Hev Hev1) as [<- <-].
    exact (proj1 (qualifies_default r0 cr tg x0 oc Hr0 Hcr Hne H4) Hq).
  - intro Hb. split; [exact Hft|]. split; [exact Hf|].
    exists x0, r0. split; [exact Hev|].
    exact (proj2 (qualifies_default r0 cr tg x0 oc Hr0 Hcr Hne H4) Hb).
Qed.

Lemma default_target_offers_better_witness :
  exists result,
    optimize_cii Instance.ext 0%Z Instance.rated_D_params Instance.lng_carrier None
    = Ok result /\
    In "LNG" (offered_fuels result).
Proof.
  eexists. split; [vm_compute; reflexivity|].
  edestruct (default_target_offers_better Instance.ext 0%Z Instance.rated_D_params
               Instance.lng_carrier)
    as (cc & rc & cr & tc & found & H1 & H2 & H3 & _ & Hall).
  - vm_compute; reflexivity.
  - exact instance_rated_D_searches.
  - left. reflexivity.
  - destruct (Hall "LNG") as (x0 & r0 & [E1 E2] & Hiff); [now left|].
    now left.
Defined.

(** X18.  With no target rating given, fuel >= 0, distance > 0, capacity > 0,
    a positive required CII and a search that answers inside its bounds, a
    result that offers 'LNG' offers 'Methanol' as well: at the same point
    the CII of 'Methanol' is not above the CII of 'LNG'. *)
Theorem methanol_whenever_lng (ext : Externals) (g : Scipy.rng_state)
  (current_params : OperationalParams) (ship_info : ShipInfo) (result : pyval)
  (fuel dist cap required : Q) :
  de_respects_bounds ext ->
  annualFuelConsumption current_params = Fin fuel ->
  distanceTraveled current_params = Fin dist ->
  capacity ship_info = Fin cap ->
  calculate_required_cii ext (shipType ship_info) (capacity ship_info)
    (year ship_info) = Ok (Fin required) ->
  0 <= fuel -> 0 < dist -> 0 < cap -> 0 < required ->
  optimize_cii ext g current_params ship_info None = Ok result ->
  In "LNG" (offered_fuels result) ->
  In "Methanol" (offered_fuels result).
Proof.
  intros Hb Hf Hd Hc Hreq Hf0 Hd0 Hc0 Hr0 H Hlng.
  apply optimize_cii_outcome in H.
  destruct H as [cc rc tg H1 H2 H3 H4
                | cc rc cr tg tc found oc orat sw H1 H2 H3 Hne H4 H5 H6 H7 H8 H9];
    [contradiction|].
  rewrite Hreq in H2. injection H2 as <-.
  destruct (search_point_finite _ _ _ _ _ _ _ _ Hb Hf Hd H6)
    as (ofu & od & Ex & F1 & F2 & D1 & D2).
  rewrite Ex in *. cbn [fst snd] in *.
  assert (Hod : 0 < od) by lra.
  assert (Hofu : 0 <= ofu) by lra.
  pose proof (transport_work_nonzero _ _ Hc0 Hod) as Hnz.
  pose proof (get_cii_rating_letter _ _ _ H3) as Hcr.
  apply (offered_fuels_iff _ _ _ _ _ _ _ _ _ _ _ _ _ H9) in Hlng.
  destruct Hlng as (Hs & _ & xl & rl & [El Rl] & Hq).
  apply (offered_fuels_iff _ _ _ _ _ _ _ _ _ _ _ _ _ H9).
  split; [exact Hs|]. split; [right; now left|].
  rewrite Hc in El. rewrite (calculate_cii_fin _ _ _ _ Hnz) in El.
  injection El as <-.
  change (co2_factor "LNG") with 2.750 in Rl, Hq.
  set (xl := ofu * 2.750 / (cap * od) * 1_000_000) in *.
  set (xm := ofu * 1.375 / (cap * od) * 1_000_000).
  assert (Hle : xm <= xl).
  { assert (Htw : 0 < cap * od) by nra.
    assert (Hq1 : ofu * 1.375 / (cap * od) <= ofu * 2.750 / (cap * od)).
    { unfold Qdiv. apply Qmult_le_compat_r; [nra|].
      apply Qlt_le_weak, Qinv_lt_0_compat, Htw. }
    unfold xm, xl. nra. }
  destruct (rating_rank_monotone xm xl required Hr0 Hle) as (rm & rl' & Rm & Rl' & Hrank).
  rewrite Rl in Rl'. injection Rl' as <-.
  pose proof (get_cii_rating_letter _ _ _ Rl) as Hrl.
  pose proof (get_cii_rating_letter _ _ _ Rm) as Hrm.
  exists (Fin xm), rm. split.
  - split; [|exact Rm]. rewrite Hc.
    exact (calculate_cii_fin ofu od cap "Methanol" Hnz).
  - apply (proj1 (qualifies_default rl cr tg (Fin xl) oc Hrl Hcr Hne H4)) in Hq.
    apply (proj2 (qualifies_default rm cr tg (Fin xm) oc Hrm Hcr Hne H4)).
    unfold better in *. lia.
Qed.

Lemma methanol_whenever_lng_witness :
  exists result,
    optimize_cii Instance.ext 0%Z Instance.rated_D_params Instance.lng_carrier None
    = Ok result /\
    In "Methanol" (offered_fuels result).
Proof.
  eexists. split; [vm_compute; reflexivity|].
  eapply (methanol_whenever_lng Instance.ext 0%Z Instance.rated_D_params
            Instance.lng_carrier _ 25000 95000 85000 (9.827 * 1 * (1 + - 0.09))).
  - exact instance_respects_bounds.
  - reflexivity.
  - reflexivity.
  - reflexivity.
  - reflexivity.
  - discriminate.
  - reflexivity.
  - reflexivity.
  - reflexivity.
  - vm_compute; reflexivity.
  - now left.
Defined.





(** ** The fuel type of the result *)

(** X21.  [optimize_cii] never changes the fuel type: the optimizedParams of
    every result, short circuit or search, carry the fuel type of the
    request, also when a fuel switch is recommended. *)
Theorem fuel_type_unchanged (ext : Externals) (g : Scipy.rng_state)
  (current_params : OperationalParams) (ship_info : ShipInfo)
  (target_rating : option string) (result : pyval) :
  optimize_cii ext g current_params ship_info target_rating = Ok result ->
  optimized_param result "fuelType" = Some (VStr (fuelType current_params)) /\
  (forall f, In f (offered_fuels result) -> f <> fuelType current_params).
Proof.
  intro H. split.
  - apply optimize_cii_outcome in H.
    destruct H as [cc rc tg H1 H2 H3 H4
                  | cc rc cr tg tc res oc orat sw H1 H2 H3 Hne H4 H5 H6 H7 H8 H9];
      reflexivity.
  - intros f Hf Heq. subst f.
    pose proof (offered_fuels_candidates _ _ _ _ _ _ H _ Hf) as Hcand.
    apply optimize_cii_outcome in H.
    destruct H as [cc rc tg H1 H2 H3 H4
                  | cc rc cr tg tc res oc orat sw H1 H2 H3 Hne H4 H5 H6 H7 H8 H9];
      [contradiction|].
    apply (offered_fuels_iff _ _ _ _ _ _ _ _ _ _ _ _ _ H9) in Hf.
    destruct Hf as (Hs & _). apply str_in_high_carbon in Hs.
    destruct Hcand as [E|[E|[]]]; rewrite <- E in Hs;
      destruct Hs as [C|[C|C]]; discriminate.
Qed.

Lemma fuel_type_unchanged_witness :
  exists result,
    optimize_cii Instance.ext 0%Z Instance.rated_D_params Instance.lng_carrier None
    = Ok result /\
    optimized_param result "fuelType" = Some (VStr "HFO").
Proof.
  eexists. split; [vm_compute; reflexivity|].
  eapply (fuel_type_unchanged Instance.ext 0%Z Instance.rated_D_params
            Instance.lng_carrier None).
  vm_compute; reflexivity.
Defined.
